(** * JUnit HTML report: a shallow embedding of
      [pants/backend/jvm/tasks/reports/junit_html_report.py]

    The Python module is translated function by function.  Python [int]
    values are [Z], Python [float] values are IEEE 754 binary64 numbers
    ([spec_float] with [prec = 53] and [emax = 1024]), Python strings are
    byte strings ([string]), [None]-or-dict fields are [option]s of records,
    and an exception is an explicit [Raise] result. *)

From Stdlib Require Import ZArith String Ascii List Bool Lia DecimalString.
From Stdlib Require Import Floats.SpecFloat Sorting.Sorted.
From stdpp Require Import base option list gmap strings.

Import ListNotations.
Local Open Scope string_scope.
Local Open Scope Z_scope.

(** ** Exceptions and results *)

(** The exceptions the module can raise.  [XmlParseError] is
    [xml.etree.ElementTree.ParseError]; the others are the builtin ones. *)
Inductive exn : Type :=
| XmlParseError
| IOError
| OSError
| KeyError (key : string)
| ValueError (literal : string)
| OverflowError
| ZeroDivisionError
| TypeError
| AttributeError (attr : string).

Inductive result (A : Type) : Type :=
| Ok (a : A)
| Raise (e : exn).

Arguments Ok {A} a.
Arguments Raise {A} e.

#[export] Instance result_ret : MRet result := fun A a => Ok a.

#[export] Instance result_bind : MBind result := fun A B k r =>
  match r with
  | Ok a => k a
  | Raise e => Raise e
  end.

Definition is_ok {A : Type} (r : result A) : bool :=
  match r with Ok _ => true | Raise _ => false end.

(** [for x in l: acc.append(f(x))], stopping at the first exception. *)
Fixpoint result_mapM {A B : Type} (f : A -> result B) (l : list A) : result (list B) :=
  match l with
  | [] => Ok []
  | x :: l' => y ← f x; ys ← result_mapM f l'; Ok (y :: ys)
  end.

(** [for x in l: acc = f(acc, x)], stopping at the first exception. *)
Fixpoint foldM {A S : Type} (f : S -> A -> result S) (acc : S) (l : list A)
  : result S :=
  match l with
  | [] => Ok acc
  | x :: l' => acc' ← f acc x; foldM f acc' l'
  end.

(** ** Python floats *)

(** Binary64: 53 bits of precision, exponent of the infinities 1024. *)
Definition prec : Z := 53.
Definition emax : Z := 1024.

(** Conversion of a Python [int] to [float], as done when an [int] meets a
    [float] in an arithmetic operation: round to nearest, ties to even, and
    [OverflowError] when the integer is too large for a finite float. *)
Definition float_of_int (n : Z) : result spec_float :=
  match binary_normalize prec emax n 0 false with
  | S754_infinity _ => Raise OverflowError
  | x => Ok x
  end.

(** The literal [100.0]. *)
Definition float_100 : spec_float := S754_finite false 7036874417766400 (-46).

(** [x * y] on floats never raises. *)
Definition float_mul (x y : spec_float) : spec_float := SFmul prec emax x y.

(** [x + y] on floats never raises. *)
Definition float_add (x y : spec_float) : spec_float := SFadd prec emax x y.

(** [x / y] on floats raises [ZeroDivisionError] on a zero divisor. *)
Definition float_div (x y : spec_float) : result spec_float :=
  match y with
  | S754_zero _ => Raise ZeroDivisionError
  | _ => Ok (SFdiv prec emax x y)
  end.

(** Decimal digits of a natural number, most significant first. *)
Definition decimal (n : N) : string :=
  DecimalString.NilZero.string_of_uint (N.to_uint n).

(** [round(m * 2^e * 100)] to the nearest integer, ties to even: the number
    of hundredths printed by the [.2f] conversion, which rounds the exact
    binary value correctly. *)
Definition hundredths (m : positive) (e : Z) : N :=
  match e with
  | Zneg p =>
      let num := (Npos m * 100)%N in
      let den := (2 ^ Npos p)%N in
      let q := (num / den)%N in
      let r := (num mod den)%N in
      match (2 * r ?= den)%N with
      | Lt => q
      | Gt => (q + 1)%N
      | Eq => if N.even q then q else (q + 1)%N
      end
  | _ => (Npos m * 2 ^ Z.to_N e * 100)%N
  end.

Definition sign_string (s : bool) : string :=
  if s then "-" else EmptyString.

Definition digit_char (n : N) : ascii := ascii_of_N (48 + n).

(** [h] hundredths printed as [<integer part>.<two digits>]. *)
Definition fixed2 (h : N) : string :=
  decimal (h / 100)
  ++ String "." (String (digit_char ((h mod 100) / 10))
                  (String (digit_char (h mod 10)) EmptyString)).

(** ['{:.2f}'.format(x)]. *)
Definition format_2f (x : spec_float) : string :=
  match x with
  | S754_nan => "nan"
  | S754_infinity s => sign_string s ++ "inf"
  | S754_zero s => sign_string s ++ "0.00"
  | S754_finite s m e => sign_string s ++ fixed2 (hundredths m e)
  end.

(** ** Icon classes *)

Definition test_passed : string := "test-passed".
Definition test_skipped : string := "test-skipped".
Definition test_error : string := "test-error".
Definition test_failure : string := "test-failure".

(** ** Values of display records *)

(** Values stored in the dicts handed to the template: [None], strings,
    integers and floats. *)
Inductive atom : Type :=
| ANone
| AStr (s : string)
| AInt (z : Z)
| AFloat (x : spec_float).

Definition atom_of_text (t : option string) : atom :=
  match t with Some s => AStr s | None => ANone end.

(** ** [ReportTestCase] *)

(** The dict [{'type': ..., 'message': ...}] built by the parser for a
    [<failure>] or [<error>] element; [message] is the element's [text],
    which is [None] for an element without text. *)
Record fault : Type := Fault {
  fault_type : string;
  fault_message : option string
}.

(** Truth value of a field holding [None] or a two-key dict. *)
Definition truthy {A : Type} (o : option A) : bool :=
  match o with Some _ => true | None => false end.

Record ReportTestCase : Type := MkCase {
  tc_name : string;
  tc_time : spec_float;
  tc_failure : option fault;
  tc_error : option fault;
  tc_skipped : bool
}.

Module Case.

(** [ReportTestCase.icon_class]. *)
Definition icon_class (self : ReportTestCase) : string :=
  let icon_class := test_passed in
  if tc_skipped self then test_skipped
  else if truthy (tc_error self) then test_error
  else if truthy (tc_failure self) then test_failure
  else icon_class.

(** [ReportTestCase.as_dict]. *)
Definition as_dict (self : ReportTestCase) : gmap string atom :=
  let d : gmap string atom :=
    <["icon_class" := AStr (icon_class self)]>
      (<["time" := AFloat (tc_time self)]>
        (<["name" := AStr (tc_name self)]> ∅)) in
  match tc_error self with
  | Some e => <["message" := atom_of_text (fault_message e)]> d
  | None =>
      match tc_failure self with
      | Some f => <["message" := atom_of_text (fault_message f)]> d
      | None => d
      end
  end.

End Case.

(** ** [ReportTestSuite]: the data object and its ordering *)

Record ReportTestSuite : Type := MkSuite {
  name : string;
  tests : Z;
  errors : Z;
  failures : Z;
  skipped : Z;
  time : spec_float;
  testcases : list ReportTestCase
}.

(** [str.lower()] on a byte string: only the ASCII letters [A]..[Z] change. *)
Definition lower_char (c : ascii) : ascii :=
  let n := N_of_ascii c in
  if ((65 <=? n) && (n <=? 90))%N then ascii_of_N (n + 32) else c.

Fixpoint lower (s : string) : string :=
  match s with
  | EmptyString => EmptyString
  | String c s' => String (lower_char c) (lower s')
  end.

(** [a > b] on pairs of integers: the first position where the tuples differ
    decides. *)
Definition pair_gt (a b : Z * Z) : bool :=
  if fst a =? fst b then snd a >? snd b else fst a >? fst b.

(** [a < b] on pairs of integers. *)
Definition pair_lt (a b : Z * Z) : bool :=
  if fst a =? fst b then snd a <? snd b else fst a <? fst b.

(** [map] is a builtin whose meaning depends on the interpreter: a list is
    built at once under Python 2, a lazy iterator is returned under
    Python 3. *)
Inductive python : Type := Python2 | Python3.

(** Values of the attributes of a [ReportTestSuite] object. *)
Inductive value : Type :=
| VAtom (a : atom)
| VCases (l : list ReportTestCase)
| VDicts (l : list (gmap string atom))
| VLazyMap (source : value).

(** The attribute dictionary ([__dict__]) of a suite right after
    [__init__]. *)
Definition suite_dict (s : ReportTestSuite) : gmap string value :=
  <["testcases" := VCases (testcases s)]>
    (<["time" := VAtom (AFloat (time s))]>
      (<["skipped" := VAtom (AInt (skipped s))]>
        (<["failures" := VAtom (AInt (failures s))]>
          (<["errors" := VAtom (AInt (errors s))]>
            (<["tests" := VAtom (AInt (tests s))]>
              (<["name" := VAtom (AStr (name s))]> ∅)))))).

Module Suite.

(** [ReportTestSuite.success_rate]. *)
Definition success_rate (test_count error_count failure_count skipped_count : Z)
  : result string :=
  if test_count =? 0 then Ok "0.00%"
  else
    let unsuccessful_count := error_count + failure_count + skipped_count in
    successful ← float_of_int (test_count - unsuccessful_count);
    let scaled := float_mul successful float_100 in
    total ← float_of_int test_count;
    rate ← float_div scaled total;
    Ok (format_2f rate ++ "%").

(** [ReportTestSuite.icon_class]. *)
Definition icon_class (test_count error_count failure_count skipped_count : Z)
  : string :=
  let icon_class := test_passed in
  if test_count =? skipped_count then test_skipped
  else if error_count >? 0 then test_error
  else if failure_count >? 0 then test_failure
  else icon_class.

(** [ReportTestSuite.__lt__]. *)
Definition __lt__ (self other : ReportTestSuite) : bool :=
  if pair_gt (errors self, failures self) (errors other, failures other) then true
  else if pair_lt (errors self, failures self) (errors other, failures other)
  then false
  else String.ltb (lower (name self)) (lower (name other)).

(** [self.<attr>] for an attribute used as an integer count. *)
Definition get_count (self : gmap string value) (attr : string) : result Z :=
  match self !! attr with
  | Some (VAtom (AInt z)) => Ok z
  | Some _ => Raise TypeError
  | None => Raise (AttributeError attr)
  end.

(** [map(lambda tc: tc.as_dict(), seq)]. Under Python 2 every element is
    converted at once, and an element that is already a dict (or a
    character of a string) has no [as_dict] attribute; under Python 3
    nothing is evaluated yet.  A value that is not iterable is a
    [TypeError]; a lazy iterator does not exist under Python 2. *)
Definition map_as_dict (py : python) (seq : value) : result value :=
  match py with
  | Python3 =>
      match seq with
      | VAtom (AStr _) | VCases _ | VDicts _ | VLazyMap _ => Ok (VLazyMap seq)
      | VAtom _ => Raise TypeError
      end
  | Python2 =>
      match seq with
      | VCases l => Ok (VDicts (Case.as_dict <$> l))
      | VDicts [] | VAtom (AStr EmptyString) => Ok (VDicts [])
      | VDicts (_ :: _) | VAtom (AStr _) => Raise (AttributeError "as_dict")
      | VAtom _ | VLazyMap _ => Raise TypeError
      end
  end.

(** The four counts [self.tests, self.errors, self.failures, self.skipped]. *)
Definition get_counts (self : gmap string value) : result (Z * Z * Z * Z) :=
  t ← get_count self "tests"; e ← get_count self "errors";
  f ← get_count self "failures"; s ← get_count self "skipped";
  Ok (t, e, f, s).

(** [ReportTestSuite.as_dict]: [d] is the object's own [__dict__], so every
    assignment to [d] is an assignment to the object.  The function takes
    the attribute dictionary before the call and returns the attribute
    dictionary after the call together with the value returned (or the
    exception raised). *)
Definition as_dict (py : python) (self : gmap string value)
  : gmap string value * result (gmap string value) :=
  let d := self in
  match '(t, e, f, s) ← get_counts d; success_rate t e f s with
  | Raise ex => (d, Raise ex)
  | Ok success =>
  let d := <["success" := VAtom (AStr success)]> d in
  match '(t, e, f, s) ← get_counts d; Ok (icon_class t e f s) with
  | Raise ex => (d, Raise ex)
  | Ok icon =>
  let d := <["icon_class" := VAtom (AStr icon)]> d in
  match d !! "testcases" with
  | None => (d, Raise (AttributeError "testcases"))
  | Some seq =>
  match map_as_dict py seq with
  | Raise ex => (d, Raise ex)
  | Ok cases =>
  let d := <["testcases" := cases]> d in
  (d, Ok d)
  end end end end.

End Suite.

(** [list.sort()] is a stable sort driven by [__lt__]: an element is put in
    front of the first element that does not sort strictly before it. *)
Fixpoint sort_insert (x : ReportTestSuite) (l : list ReportTestSuite)
  : list ReportTestSuite :=
  match l with
  | [] => [x]
  | y :: l' => if Suite.__lt__ y x then y :: sort_insert x l' else x :: y :: l'
  end.

Definition sort (l : list ReportTestSuite) : list ReportTestSuite :=
  foldr sort_insert [] l.

(** ** XML documents *)

(** An [xml.etree.ElementTree.Element]: tag, attribute dict, the text before
    the first child ([None] when there is none) and the child elements. *)
#[warnings="-register-all"]
Inductive element : Type := Element {
  tag : string;
  attrib : gmap string string;
  text : option string;
  children : list element
}.

(** All elements of the subtree rooted at [e], [e] first, in document
    order. *)
Fixpoint subtree (e : element) : list element :=
  e :: flat_map subtree (children e).

(** [e.iter(t)]: the elements of the subtree of [e] whose tag is [t], in
    document order. *)
Definition iter (t : string) (e : element) : list element :=
  filter (fun x => tag x = t) (subtree e).

(** [e.attrib[key]]. *)
Definition attrib_item (e : element) (key : string) : result string :=
  match attrib e !! key with
  | Some v => Ok v
  | None => Raise (KeyError key)
  end.

(** An argument of [int()] or [float()]: attribute text, or the integer
    default of [attrib.get]. *)
Inductive arg : Type :=
| Text (s : string)
| Default (z : Z).

(** [e.attrib.get(key, default)]. *)
Definition attrib_get (e : element) (key : string) (default : Z) : arg :=
  match attrib e !! key with
  | Some v => Text v
  | None => Default default
  end.

(** ** Files *)

(** What [ET.parse] finds at a path: a file that cannot be read, a file that
    is not well-formed XML, or a document with its root element. *)
Inductive xml_file : Type :=
| Unreadable
| Malformed
| Document (root : element).

(** [ET.parse(xml_file).getroot()]. *)
Definition ET_parse (f : xml_file) : result element :=
  match f with
  | Unreadable => Raise IOError
  | Malformed => Raise XmlParseError
  | Document root => Ok root
  end.

(** The state the report generator reads and writes: the entries of the XML
    directory in enumeration order, whether the report directory exists,
    whether it can be created and written to, the contents of
    [junit-report.html] when the file exists, and the debug messages handed
    to the logger. *)
Record world : Type := World {
  xml_dir : list (string * xml_file);
  report_dir_exists : bool;
  report_dir_writable : bool;
  report_file : option string;
  log : list string
}.

(** [fnmatch] of a file name against [TEST-*.xml]. *)
Definition glob_match (file_name : string) : bool :=
  String.prefix "TEST-" file_name
  && (".xml" =? substring (String.length file_name - 4) 4 file_name)%string
  && (9 <=? String.length file_name)%nat.

(** [glob.glob(os.path.join(xml_dir, 'TEST-*.xml'))]. *)
Definition glob (w : world) : list xml_file :=
  snd <$> filter (fun entry => glob_match (fst entry) = true) (xml_dir w).

(** ** The parser *)

Section Parser.

(** The builtins [int] and [float] applied to a string: [None] stands for
    the [ValueError] raised on a string that is not a numeric literal. *)
Variable int_of_string : string -> option Z.
Variable float_of_string : string -> option spec_float.

(** [int(x)]. *)
Definition py_int (x : arg) : result Z :=
  match x with
  | Text s =>
      match int_of_string s with
      | Some z => Ok z
      | None => Raise (ValueError s)
      end
  | Default z => Ok z
  end.

(** [float(x)]. *)
Definition py_float (x : arg) : result spec_float :=
  match x with
  | Text s =>
      match float_of_string s with
      | Some f => Ok f
      | None => Raise (ValueError s)
      end
  | Default z => float_of_int z
  end.

(** [ReportTestCase.__init__]. *)
Definition new_case (name : string) (time : arg) (failure error : option fault)
    (skipped : bool) : result ReportTestCase :=
  time ← py_float time;
  Ok (MkCase name time failure error skipped).

(** [ReportTestSuite.__init__]. *)
Definition new_suite (name : string) (tests errors failures skipped time : arg)
    (testcases : list ReportTestCase) : result ReportTestSuite :=
  tests ← py_int tests;
  errors ← py_int errors;
  failures ← py_int failures;
  skipped ← py_int skipped;
  time ← py_float time;
  Ok (MkSuite name tests errors failures skipped time testcases).

(** The dict built from a [<failure>] or [<error>] element. *)
Definition fault_of (f : element) : result fault :=
  type ← attrib_item f "type";
  Ok (Fault type (text f)).

(** One round of [for f in testcase.iter(...): failure = {...}]. *)
Definition fault_step (_ : option fault) (f : element) : result (option fault) :=
  r ← fault_of f; Ok (Some r).

(** One round of [for _s in testcase.iter('skipped'): skipped = True]. *)
Definition skipped_step (_ : bool) (_s : element) : bool := true.

(** The body of [for testcase in root.iter('testcase')]. *)
Definition parse_testcase (testcase : element) : result ReportTestCase :=
  failure ← foldM fault_step None (iter "failure" testcase);
  error ← foldM fault_step None (iter "error" testcase);
  let skipped := fold_left skipped_step (iter "skipped" testcase) false in
  name ← attrib_item testcase "name";
  new_case name (attrib_get testcase "time" 0) failure error skipped.

(** The body of [for testsuite in root.iter('testsuite')]. *)
Definition parse_testsuite (testcases : list ReportTestCase) (testsuite : element)
  : result ReportTestSuite :=
  name ← attrib_item testsuite "name";
  tests ← attrib_item testsuite "tests";
  errors ← attrib_item testsuite "errors";
  failures ← attrib_item testsuite "failures";
  let skipped := attrib_get testsuite "skipped" 0 in
  time ← attrib_item testsuite "time";
  new_suite name (Text tests) (Text errors) (Text failures) skipped (Text time)
    testcases.

(** [JUnitHtmlReport._parse_xml_file], from the root element on. *)
Definition parse_root (root : element) : result (list ReportTestSuite) :=
  testcases ← result_mapM parse_testcase (iter "testcase" root);
  result_mapM (parse_testsuite testcases) (iter "testsuite" root).

(** [JUnitHtmlReport._parse_xml_file]. *)
Definition _parse_xml_file (xml_file : xml_file) : result (list ReportTestSuite) :=
  root ← ET_parse xml_file;
  parse_root root.

(** [JUnitHtmlReport._parse_xml_files]: [testsuites += ...] for every
    matching file, then [testsuites.sort()]. *)
Definition _parse_xml_files (w : world) : result (list ReportTestSuite) :=
  testsuites ← foldM (fun testsuites xml_file =>
                        more ← _parse_xml_file xml_file;
                        Ok (app testsuites more)) [] (glob w);
  Ok (sort testsuites).

End Parser.

(** ** The report generator *)

(** Values of the dict handed to the template renderer: totals, and the
    sequence of suite display records. *)
Inductive template_value : Type :=
| TAtom (a : atom)
| TSuites (l : list (gmap string value)).

Definition with_log (msg : string) (w : world) : world :=
  World (xml_dir w) (report_dir_exists w) (report_dir_writable w)
        (report_file w) (log w ++ [msg])%list.

Definition with_report_dir (w : world) : world :=
  World (xml_dir w) true (report_dir_writable w) (report_file w) (log w).

Definition with_report_file (contents : string) (w : world) : world :=
  World (xml_dir w) (report_dir_exists w) (report_dir_writable w)
        (Some contents) (log w).

Section Report.

Variable int_of_string : string -> option Z.
Variable float_of_string : string -> option spec_float.
Variable py : python.

(** [MustacheRenderer(...).render_name('junit_report.html', values)]. *)
Variable render : gmap string template_value -> string.

(** [self._report_file_path]. *)
Variable report_file_path : string.

(** The running totals of the loop of [_generate_html]. *)
Definition add_totals (totals : Z * Z * Z * Z * spec_float)
    (testsuite : ReportTestSuite) : Z * Z * Z * Z * spec_float :=
  let '(total_tests, total_errors, total_failures, total_skipped, total_time) :=
    totals in
  (total_tests + tests testsuite, total_errors + errors testsuite,
   total_failures + failures testsuite, total_skipped + skipped testsuite,
   float_add total_time (time testsuite)).

(** [JUnitHtmlReport._generate_html].  The suite display records are the
    results of [as_dict] on every suite in turn; under Python 3 the calls
    happen while the renderer walks the lazy sequence, and an exception of
    [as_dict] then comes out of the rendering. *)
Definition _generate_html (testsuites : list ReportTestSuite) : result string :=
  let '(total_tests, total_errors, total_failures, total_skipped, total_time) :=
    fold_left add_totals testsuites (0, 0, 0, 0, S754_zero false) in
  total_success ←
    Suite.success_rate total_tests total_errors total_failures total_skipped;
  let summary_icon_class :=
    Suite.icon_class total_tests total_errors total_failures total_skipped in
  records ← result_mapM (fun ts => snd (Suite.as_dict py (suite_dict ts)))
                        testsuites;
  let values : gmap string template_value :=
    <["testsuites" := TSuites records]>
      (<["summary_icon_class" := TAtom (AStr summary_icon_class)]>
        (<["total_success" := TAtom (AStr total_success)]>
          (<["total_time" := TAtom (AFloat total_time)]>
            (<["total_skipped" := TAtom (AInt total_skipped)]>
              (<["total_failures" := TAtom (AInt total_failures)]>
                (<["total_errors" := TAtom (AInt total_errors)]>
                  (<["total_tests" := TAtom (AInt total_tests)]> ∅))))))) in
  Ok (render values).

(** [JUnitHtmlReport.report]: the world after the call, and the path
    returned or the exception raised.  [safe_mkdir_for] raises [OSError]
    when the report directory is missing and cannot be created, [open]
    raises [IOError] when the file cannot be written; opening the file for
    writing truncates it before the HTML is generated. *)
Definition report (w : world) : world * result string :=
  let w := with_log "Generating JUnit HTML report..." w in
  match _parse_xml_files int_of_string float_of_string w with
  | Raise ex => (w, Raise ex)
  | Ok testsuites =>
  if negb (report_dir_exists w) && negb (report_dir_writable w)
  then (w, Raise OSError)
  else
  let w := with_report_dir w in
  if negb (report_dir_writable w) then (w, Raise IOError)
  else
  let w := with_report_file EmptyString w in
  match _generate_html testsuites with
  | Raise ex => (w, Raise ex)
  | Ok html =>
  let w := with_report_file html w in
  let w := with_log ("JUnit HTML report generated to " ++ report_file_path) w in
  (w, Ok report_file_path)
  end end.

End Report.

(** * Vocabulary of the statements *)




(** The failures the specification files under the name ParseError: a file
    that is unreadable or not well-formed, a missing attribute, an attribute
    that is not a number. *)
Definition parse_failure (e : exn) : bool :=
  match e with
  | XmlParseError | IOError | KeyError _ | ValueError _ => true
  | OSError | OverflowError | ZeroDivisionError | TypeError
  | AttributeError _ => false
  end.

(** A fault record with another type. *)
Definition with_type (type : string) (f : fault) : fault :=
  Fault type (fault_message f).

(** The attributes [_parse_xml_file] reads with [attrib[...]]. *)
Definition required_attributes : list string :=
  ["name"; "tests"; "errors"; "failures"; "time"].

Definition missing_required (testsuite : element) : Prop :=
  exists key, key ∈ required_attributes /\ attrib testsuite !! key = None.

(** A count attribute is present and [int] rejects its text. *)
Definition non_numeric_count (int_of_string : string -> option Z)
    (testsuite : element) : Prop :=
  exists key v, key ∈ ["tests"; "errors"; "failures"; "skipped"] /\
                attrib testsuite !! key = Some v /\ int_of_string v = None.

(** What [map(lambda tc: tc.as_dict(), cases)] is for a list of test
    cases. *)
Definition converted (py : python) (cases : list ReportTestCase) : value :=
  match py with
  | Python2 => VDicts (Case.as_dict <$> cases)
  | Python3 => VLazyMap (VCases cases)
  end.

(** The magnitude of a finite float: the number of digits of its mantissa
    plus its exponent. *)
Definition magnitude (m : positive) (e : Z) : Z := Zdigits2 (Zpos m) + e.

Definition is_digit (c : ascii) : Prop := (48 <= N_of_ascii c <= 57)%N.

Fixpoint all_digits (s : string) : Prop :=
  match s with
  | EmptyString => True
  | String c s' => is_digit c /\ all_digits s'
  end.

(** The subtree of [e] holds an element with tag [t]. *)
Definition has_tag (t : string) (e : element) : Prop :=
  exists x, x ∈ subtree e /\ tag x = t.

(** The [time] attribute of an element, when present, is accepted by
    [float]. *)
Definition numeric_time (float_of_string : string -> option spec_float)
    (e : element) : Prop :=
  forall v, attrib e !! "time" = Some v -> float_of_string v <> None.


(** The values handed to the template when there is no suite. *)
Definition empty_values : gmap string template_value :=
  <["testsuites" := TSuites []]>
    (<["summary_icon_class" := TAtom (AStr "test-skipped")]>
      (<["total_success" := TAtom (AStr "0.00%")]>
        (<["total_time" := TAtom (AFloat (S754_zero false))]>
          (<["total_skipped" := TAtom (AInt 0)]>
            (<["total_failures" := TAtom (AInt 0)]>
              (<["total_errors" := TAtom (AInt 0)]>
                (<["total_tests" := TAtom (AInt 0)]> ∅))))))).

(** The sum of an integer field over the suites. *)
Definition sum_of (field : ReportTestSuite -> Z) (suites : list ReportTestSuite)
  : Z :=
  foldr Z.add 0 (field <$> suites).

(** The times of the suites added up from left to right, starting from
    [0.0]. *)
Definition total_time (suites : list ReportTestSuite) : spec_float :=
  fold_left (fun acc s => float_add acc (time s)) suites (S754_zero false).

(** The counts of a suite are within the range where the success rate is
    computed without overflow. *)
Definition in_float_range (test_count error_count failure_count skipped_count : Z)
  : Prop :=
  Z.abs test_count < 2 ^ 1000 /\
  Z.abs (test_count - (error_count + failure_count + skipped_count)) < 2 ^ 1000.

(** * Sample builtins, documents and worlds *)

(** Decimal digits read as a natural number. *)
Fixpoint digits_value (s : string) (acc : N) : option N :=
  match s with
  | EmptyString => Some acc
  | String c s' =>
      let n := N_of_ascii c in
      if ((48 <=? n) && (n <=? 57))%N
      then digits_value s' (acc * 10 + (n - 48))%N
      else None
  end.

(** An instance of [int] on strings: an optional minus sign and decimal
    digits. *)
Definition sample_int (s : string) : option Z :=
  match s with
  | EmptyString => None
  | String "-" EmptyString => None
  | String "-" s' => (fun n => - Z.of_N n) <$> digits_value s' 0
  | _ => Z.of_N <$> digits_value s 0
  end.

(** An instance of [float] on strings: the integers [sample_int] reads. *)
Definition sample_float (s : string) : option spec_float :=
  (fun z => binary_normalize prec emax z 0 false) <$> sample_int s.

(** An element given by its attribute list. *)
Definition elem (tag : string) (attrs : list (string * string))
    (text : option string) (children : list element) : element :=
  Element tag (list_to_map attrs) text children.

(** A test case with two failures and a skipped marker. *)
Definition flaky_testcase : element :=
  elem "testcase" [("name", "testFlaky"); ("time", "2")] None
    [ elem "failure" [("type", "A")] (Some "first") [];
      elem "failure" [("type", "B")] (Some "second") [];
      elem "skipped" [] None [] ].

(** What the parser makes of [flaky_testcase]. *)
Definition flaky_case : ReportTestCase :=
  MkCase "testFlaky" (S754_finite false 4503599627370496 (-51))
         (Some (Fault "B" (Some "second"))) None true.

(** A test case skipped while an error record is present. *)
Definition skipped_with_error : ReportTestCase :=
  MkCase "testIgnored" (S754_zero false) None
         (Some (Fault "java.lang.Error" (Some "boom"))) true.


(** A file with two suites of one test case each. *)
Definition two_suites : element :=
  elem "testsuites" [] None
    [ elem "testsuite"
        [("name", "A"); ("tests", "1"); ("errors", "0"); ("failures", "0");
         ("time", "1")] None
        [ elem "testcase" [("name", "a1")] None [] ];
      elem "testsuite"
        [("name", "B"); ("tests", "1"); ("errors", "0"); ("failures", "1");
         ("skipped", "0"); ("time", "2")] None
        [ elem "testcase" [("name", "b1"); ("time", "2")] None
            [ elem "failure" [("type", "X")] (Some "msg") [] ] ] ].

Definition two_suites_cases : list ReportTestCase :=
  [ MkCase "a1" (S754_zero false) None None false;
    MkCase "b1" (S754_finite false 4503599627370496 (-51))
           (Some (Fault "X" (Some "msg"))) None false ].

Definition two_suites_parsed : list ReportTestSuite :=
  [ MkSuite "A" 1 0 0 0 (S754_finite false 4503599627370496 (-52))
            two_suites_cases;
    MkSuite "B" 1 0 1 0 (S754_finite false 4503599627370496 (-51))
            two_suites_cases ].

(** A world whose XML directory holds one well-formed and one malformed
    result file, and an old report. *)
Definition broken_world : world :=
  World [("TEST-a.xml", Document two_suites); ("notes.txt", Malformed);
         ("TEST-b.xml", Malformed)]
        true true (Some "<html>old</html>") [].

(** A test case whose failure element has no type attribute. *)
Definition untyped_failure : element :=
  elem "testsuite"
    [("name", "A"); ("tests", "1"); ("errors", "0"); ("failures", "1");
     ("time", "1")] None
    [ elem "testcase" [("name", "a1")] None
        [ elem "failure" [] (Some "msg") [] ] ].

(** A renderer for the examples. *)
Definition sample_render (values : gmap string template_value) : string :=
  match values !! "total_success" with
  | Some (TAtom (AStr s)) => s
  | _ => EmptyString
  end.



(** A world with the one result file [two_suites]. *)
Definition one_file_world : world :=
  World [("TEST-a.xml", Document two_suites); ("notes.txt", Malformed)]
        false true None [].

(** A count of 401 digits, too large for a float. *)
Definition huge_count : string :=
  String "1" (string_of_list_ascii (repeat "0"%char 400)).

(** A world whose one result file reports [huge_count] tests, and an old
    report. *)
Definition overflow_world : world :=
  World [("TEST-big.xml",
          Document (elem "testsuite"
                      [("name", "A"); ("tests", huge_count); ("errors", "0");
                       ("failures", "0"); ("time", "1")] None []))]
        true true (Some "<html>old</html>") [].

(** The suite of [overflow_world]. *)
Definition overflow_suite : ReportTestSuite :=
  MkSuite "A" (10 ^ 400) 0 0 0 (S754_finite false 4503599627370496 (-52)) [].

(** A world without any result file. *)
Definition no_result_world : world :=
  World [("notes.txt", Malformed); ("reports", Unreadable)] false true None [].

(** * Tactics *)

Ltac splits := repeat match goal with |- _ /\ _ => split end.

Ltac in_required := unfold required_attributes; repeat constructor.

(** * Properties *)

(** ** Icon classes *)

(** C1, as stated, fails: the skipped flag is tested before the error
    record, so a case that is both skipped and in error gets the skipped
    class and not the error class. *)
Lemma case_icon_class_error_not_first :
  tc_error skipped_with_error <> None /\
  Case.icon_class skipped_with_error = test_skipped /\
  Case.icon_class skipped_with_error <> test_error.
Proof. repeat split; [discriminate | discriminate]. Qed.

(** C1, amended: [ReportTestCase.icon_class] returns one of the four classes
    with the precedence skipped > error > failure > passed, and its result
    depends on nothing but the skipped flag and the presence of the error
    and failure records. *)
Theorem case_icon_class_precedence (c : ReportTestCase) :
  (tc_skipped c = true -> Case.icon_class c = test_skipped) /\
  (tc_skipped c = false -> tc_error c <> None ->
   Case.icon_class c = test_error) /\
  (tc_skipped c = false -> tc_error c = None -> tc_failure c <> None ->
   Case.icon_class c = test_failure) /\
  (tc_skipped c = false -> tc_error c = None -> tc_failure c = None ->
   Case.icon_class c = test_passed) /\
  In (Case.icon_class c) [test_passed; test_skipped; test_error; test_failure] /\
  (forall c' : ReportTestCase,
     tc_skipped c' = tc_skipped c ->
     truthy (tc_error c') = truthy (tc_error c) ->
     truthy (tc_failure c') = truthy (tc_failure c) ->
     Case.icon_class c' = Case.icon_class c).
Proof.
  repeat split.
  - unfold Case.icon_class. intros ->. reflexivity.
  - unfold Case.icon_class. intros ->. destruct (tc_error c); [reflexivity | congruence].
  - unfold Case.icon_class. intros -> ->. destruct (tc_failure c); [reflexivity | congruence].
  - unfold Case.icon_class. intros -> -> ->. reflexivity.
  - unfold Case.icon_class.
    destruct (tc_skipped c), (tc_error c), (tc_failure c); cbn; tauto.
  - intros c' Hs He Hf. unfold Case.icon_class. rewrite Hs, He, Hf. reflexivity.
Qed.

Lemma case_icon_class_precedence_witness :
  Case.icon_class skipped_with_error = test_skipped.
Proof.
  apply (proj1 (case_icon_class_precedence skipped_with_error)). reflexivity.
Defined.

(** C3: [ReportTestSuite.icon_class] checks "all skipped" first, then
    errors, then failures. *)
Theorem suite_icon_class_spec (test_count error_count failure_count skipped_count : Z) :
  (test_count = skipped_count ->
   Suite.icon_class test_count error_count failure_count skipped_count
   = test_skipped) /\
  (test_count <> skipped_count -> error_count > 0 ->
   Suite.icon_class test_count error_count failure_count skipped_count
   = test_error) /\
  (test_count <> skipped_count -> error_count <= 0 -> failure_count > 0 ->
   Suite.icon_class test_count error_count failure_count skipped_count
   = test_failure) /\
  (test_count <> skipped_count -> error_count <= 0 -> failure_count <= 0 ->
   Suite.icon_class test_count error_count failure_count skipped_count
   = test_passed).
Proof.
  unfold Suite.icon_class.
  destruct (Z.eqb_spec test_count skipped_count) as [Heq | Hne];
    destruct (Z.gtb_spec error_count 0);
    destruct (Z.gtb_spec failure_count 0);
    repeat split; intros; try reflexivity; try contradiction; lia.
Qed.

Lemma suite_icon_class_spec_witness :
  Suite.icon_class 0 0 0 0 = test_skipped /\
  Suite.icon_class 3 2 1 3 = test_skipped /\
  Suite.icon_class 3 2 1 0 = test_error /\
  Suite.icon_class 3 0 1 0 = test_failure /\
  Suite.icon_class 3 0 0 0 = test_passed.
Proof.
  refine (conj _ (conj _ (conj _ (conj _ _)))).
  - apply (proj1 (suite_icon_class_spec 0 0 0 0)). reflexivity.
  - apply (proj1 (suite_icon_class_spec 3 2 1 3)). reflexivity.
  - apply (proj1 (proj2 (suite_icon_class_spec 3 2 1 0))); lia.
  - apply (proj1 (proj2 (proj2 (suite_icon_class_spec 3 0 1 0)))); lia.
  - apply (proj2 (proj2 (proj2 (suite_icon_class_spec 3 0 0 0)))); lia.
Defined.

(** ** The ordering of suites *)


















(** ** Loops that may raise *)

Lemma bind_ok {A B : Type} (r : result A) (k : A -> result B) (b : B) :
  (r ≫= k) = Ok b <-> exists a, r = Ok a /\ k a = Ok b.
Proof.
  destruct r as [a|e]; cbn; split.
  - eauto.
  - intros (a' & [= <-] & H). exact H.
  - discriminate.
  - intros (a' & [=] & _).
Qed.

Lemma is_ok_true {A : Type} (r : result A) :
  is_ok r = true <-> exists a, r = Ok a.
Proof.
  destruct r; cbn; split; eauto; try discriminate. intros [? [=]].
Qed.

Lemma is_ok_false {A : Type} (r : result A) :
  is_ok r = false <-> exists e, r = Raise e.
Proof.
  destruct r; cbn; split; eauto; try discriminate. intros [? [=]].
Qed.

Lemma result_mapM_ok {A B : Type} (f : A -> result B) l l' :
  result_mapM f l = Ok l' <-> Forall2 (fun x y => f x = Ok y) l l'.
Proof.
  revert l'. induction l as [|x l IH]; intros l'; cbn.
  - split; [intros [= <-]; constructor | inversion 1; reflexivity].
  - split.
    + intros H. apply bind_ok in H as (y & Hy & H).
      apply bind_ok in H as (ys & Hys & [= <-]).
      constructor; [assumption | apply IH, Hys].
    + inversion 1 as [|? y ? ys Hy Hys]; subst.
      rewrite Hy. cbn. apply IH in Hys. rewrite Hys. reflexivity.
Qed.

Lemma result_mapM_raise {A B : Type} (f : A -> result B) l x :
  x ∈ l -> is_ok (f x) = false -> is_ok (result_mapM f l) = false.
Proof.
  induction 1 as [x l|x y l Hin IH]; intros Hx; cbn.
  - destruct (f x); [discriminate | reflexivity].
  - destruct (f y); [|reflexivity]. cbn.
    destruct (result_mapM f l); [|reflexivity].
    specialize (IH Hx). discriminate.
Qed.

Lemma foldM_raise {A S : Type} (f : S -> A -> result S) l x e :
  x ∈ l ->
  (forall acc y, y ∈ l -> f acc y = Raise e \/ is_ok (f acc y) = true) ->
  (forall acc, f acc x = Raise e) ->
  forall acc, foldM f acc l = Raise e.
Proof.
  induction 1 as [x l|x y l Hin IH]; intros Hall Hx acc; cbn.
  - rewrite Hx. reflexivity.
  - destruct (Hall acc y) as [Hy|Hy]; [left| |].
    + rewrite Hy. reflexivity.
    + apply is_ok_true in Hy as [acc' Hy]. rewrite Hy. cbn.
      apply IH; [|assumption].
      intros acc0 y0 H0. apply Hall. right. assumption.
Qed.

(** ** Walking the document *)

Lemma elem_of_iter t e x : x ∈ iter t e <-> tag x = t /\ x ∈ subtree e.
Proof. unfold iter. rewrite list_elem_of_filter. reflexivity. Qed.

(** ** Test cases *)

Section CaseProperties.

Variable float_of_string : string -> option spec_float.

Lemma fault_step_ok acc f r :
  fault_step acc f = Ok r <->
  exists type, attrib f !! "type" = Some type /\ r = Some (Fault type (text f)).
Proof.
  unfold fault_step, fault_of, attrib_item.
  destruct (attrib f !! "type") as [type|]; cbn; split.
  - intros [= <-]. eauto.
  - intros (type' & [= <-] & ->). reflexivity.
  - discriminate.
  - intros (type' & [=] & _).
Qed.

Lemma fault_step_raise acc f :
  attrib f !! "type" = None -> fault_step acc f = Raise (KeyError "type").
Proof.
  intros H. unfold fault_step, fault_of, attrib_item. rewrite H. reflexivity.
Qed.

Lemma fault_step_cases acc f :
  fault_step acc f = Raise (KeyError "type") \/ is_ok (fault_step acc f) = true.
Proof.
  unfold fault_step, fault_of, attrib_item.
  destruct (attrib f !! "type"); cbn; auto.
Qed.

(** The loop over the [<failure>] (or [<error>]) elements keeps the record of
    the last element only. *)
Lemma foldM_fault_step_last l acc r :
  foldM fault_step acc l = Ok r ->
  match last l with
  | None => r = acc
  | Some f =>
      exists type, attrib f !! "type" = Some type /\
                   r = Some (Fault type (text f))
  end.
Proof.
  revert acc. induction l as [|x l IH]; intros acc; cbn.
  - intros [= <-]. reflexivity.
  - intros H. apply bind_ok in H as (acc' & Hx & H).
    specialize (IH _ H). destruct l as [|y l].
    + cbn in *. subst. apply fault_step_ok in Hx. exact Hx.
    + rewrite last_cons_cons. destruct (last (y :: l)) eqn:Hl; [exact IH|].
      apply last_None in Hl. discriminate.
Qed.

Lemma fold_left_skipped_step l b :
  fold_left skipped_step l b = true <-> b = true \/ l <> [].
Proof.
  revert b. induction l as [|x l IH]; intros b; cbn.
  - split; [auto | intros [?|?]; congruence].
  - rewrite IH. unfold skipped_step. split; [intros _; right; discriminate | auto].
Qed.

(** C7: the failure record of a parsed test case comes from the last
    [<failure>] element of its subtree in document order, its error record
    from the last [<error>] element, and it is flagged skipped exactly when
    its subtree holds a [<skipped>] element. *)
Theorem parse_testcase_last_wins (testcase : element) (c : ReportTestCase) :
  parse_testcase float_of_string testcase = Ok c ->
  match last (iter "failure" testcase) with
  | None => tc_failure c = None
  | Some f =>
      exists type, attrib f !! "type" = Some type /\
                   tc_failure c = Some (Fault type (text f))
  end /\
  match last (iter "error" testcase) with
  | None => tc_error c = None
  | Some e =>
      exists type, attrib e !! "type" = Some type /\
                   tc_error c = Some (Fault type (text e))
  end /\
  (tc_skipped c = true <->
   exists s, s ∈ subtree testcase /\ tag s = "skipped").
Proof.
  unfold parse_testcase, new_case. intros H.
  apply bind_ok in H as (failure & Hf & H).
  apply bind_ok in H as (error & He & H).
  apply bind_ok in H as (name & Hn & H).
  apply bind_ok in H as (time & Ht & [= <-]). cbn.
  split; [exact (foldM_fault_step_last _ _ _ Hf)|].
  split; [exact (foldM_fault_step_last _ _ _ He)|].
  rewrite fold_left_skipped_step. split.
  - intros [[=]|Hne].
    destruct (iter "skipped" testcase) as [|s l] eqn:Hl; [congruence|].
    exists s. assert (s ∈ iter "skipped" testcase) as Hs by (rewrite Hl; left).
    apply elem_of_iter in Hs. tauto.
  - intros (s & Hs & Htag). right.
    assert (s ∈ iter "skipped" testcase) as Hin by (apply elem_of_iter; auto).
    intros E. rewrite E in Hin. inversion Hin.
Qed.

End CaseProperties.

Lemma parse_testcase_last_wins_witness :
  parse_testcase sample_float flaky_testcase = Ok flaky_case /\
  (match last (iter "failure" flaky_testcase) with
   | None => tc_failure flaky_case = None
   | Some f =>
       exists type, attrib f !! "type" = Some type /\
                    tc_failure flaky_case = Some (Fault type (text f))
   end /\
   match last (iter "error" flaky_testcase) with
   | None => tc_error flaky_case = None
   | Some e =>
       exists type, attrib e !! "type" = Some type /\
                    tc_error flaky_case = Some (Fault type (text e))
   end /\
   (tc_skipped flaky_case = true <->
    exists s, s ∈ subtree flaky_testcase /\ tag s = "skipped")).
Proof.
  assert (parse_testcase sample_float flaky_testcase = Ok flaky_case) as H
    by (vm_compute; reflexivity).
  exact (conj H (parse_testcase_last_wins sample_float _ _ H)).
Defined.

(** ** Failures of the parser *)

Lemma bind_raise {A B : Type} (r : result A) (k : A -> result B) (e : exn) :
  (r ≫= k) = Raise e <-> r = Raise e \/ exists a, r = Ok a /\ k a = Raise e.
Proof.
  destruct r as [a|e']; cbn; split.
  - eauto.
  - intros [[=]|(a' & [= <-] & H)]. exact H.
  - intros [= ->]. auto.
  - intros [[= ->]|(a' & [=] & _)]. reflexivity.
Qed.

Lemma result_mapM_raise_inv {A B : Type} (f : A -> result B) l e :
  result_mapM f l = Raise e -> exists x, x ∈ l /\ f x = Raise e.
Proof.
  induction l as [|x l IH]; cbn; [discriminate|].
  intros H. apply bind_raise in H as [H|(y & Hy & H)].
  - exists x. split; [left | exact H].
  - apply bind_raise in H as [H|(ys & _ & [=])].
    destruct (IH H) as (x' & Hin & Hx'). exists x'. split; [right|]; assumption.
Qed.

Lemma foldM_raise_inv {A S : Type} (f : S -> A -> result S) l acc e :
  foldM f acc l = Raise e -> exists acc' x, x ∈ l /\ f acc' x = Raise e.
Proof.
  revert acc. induction l as [|x l IH]; intros acc; cbn; [discriminate|].
  intros H. apply bind_raise in H as [H|(acc' & _ & H)].
  - exists acc, x. split; [left | exact H].
  - destruct (IH _ H) as (acc0 & x' & Hin & Hx').
    exists acc0, x'. split; [right|]; assumption.
Qed.

Lemma foldM_app {A S : Type} (f : S -> A -> result S) l1 l2 acc :
  foldM f acc (l1 ++ l2)%list = (acc' ← foldM f acc l1; foldM f acc' l2).
Proof.
  revert acc. induction l1 as [|x l1 IH]; intros acc; cbn; [reflexivity|].
  destruct (f acc x) as [acc'|e]; cbn; [apply IH | reflexivity].
Qed.

Lemma foldM_all_ok {A S : Type} (f : S -> A -> result S) l :
  Forall (fun x => forall acc, is_ok (f acc x) = true) l ->
  forall acc, is_ok (foldM f acc l) = true.
Proof.
  induction 1 as [|x l Hx _ IH]; intros acc; cbn; [reflexivity|].
  specialize (Hx acc). destruct (f acc x); [apply IH | discriminate].
Qed.

Lemma foldM_not_ok {A S : Type} (f : S -> A -> result S) l x :
  x ∈ l -> (forall acc, is_ok (f acc x) = false) ->
  forall acc, is_ok (foldM f acc l) = false.
Proof.
  induction 1 as [x l|x y l Hin IH]; intros Hx acc; cbn.
  - specialize (Hx acc). destruct (f acc x); [discriminate | reflexivity].
  - destruct (f acc y); [|reflexivity]. cbn. apply IH, Hx.
Qed.

Section ParserProperties.

Variable int_of_string : string -> option Z.
Variable float_of_string : string -> option spec_float.

Lemma py_int_raise x e : py_int int_of_string x = Raise e -> parse_failure e = true.
Proof.
  destruct x as [s|z]; cbn; [|discriminate].
  destruct (int_of_string s); [discriminate | intros [= <-]; reflexivity].
Qed.

Lemma attrib_item_raise el key e :
  attrib_item el key = Raise e -> e = KeyError key /\ attrib el !! key = None.
Proof.
  unfold attrib_item. destruct (attrib el !! key); [discriminate|].
  intros [= <-]. auto.
Qed.

Lemma py_float_time_raise el e :
  py_float float_of_string (attrib_get el "time" 0) = Raise e ->
  parse_failure e = true.
Proof.
  unfold attrib_get. destruct (attrib el !! "time") as [s|]; cbn.
  - destruct (float_of_string s); [discriminate | intros [= <-]; reflexivity].
  - discriminate.
Qed.

Lemma py_float_text_raise s e :
  py_float float_of_string (Text s) = Raise e -> parse_failure e = true.
Proof.
  cbn. destruct (float_of_string s); [discriminate | intros [= <-]; reflexivity].
Qed.

Lemma foldM_fault_step_raise l acc e :
  foldM fault_step acc l = Raise e -> e = KeyError "type".
Proof.
  intros H. apply foldM_raise_inv in H as (acc' & x & _ & H).
  destruct (fault_step_cases acc' x) as [H'|H']; [congruence|].
  rewrite H in H'. discriminate.
Qed.

Lemma parse_testcase_raise testcase e :
  parse_testcase float_of_string testcase = Raise e -> parse_failure e = true.
Proof.
  unfold parse_testcase, new_case. intros H.
  apply bind_raise in H as [H|(failure & _ & H)].
  { apply foldM_fault_step_raise in H as ->. reflexivity. }
  apply bind_raise in H as [H|(error & _ & H)].
  { apply foldM_fault_step_raise in H as ->. reflexivity. }
  apply bind_raise in H as [H|(name & _ & H)].
  { apply attrib_item_raise in H as [-> _]. reflexivity. }
  apply bind_raise in H as [H|(time & _ & [=])].
  eapply py_float_time_raise, H.
Qed.

Lemma parse_testsuite_raise testcases testsuite e :
  parse_testsuite int_of_string float_of_string testcases testsuite = Raise e ->
  parse_failure e = true.
Proof.
  unfold parse_testsuite, new_suite. intros H.
  repeat (apply bind_raise in H as [H|(? & _ & H)];
          [first [ apply attrib_item_raise in H as [-> _]; reflexivity
                 | eapply py_int_raise, H
                 | eapply py_float_text_raise, H ] | ]).
  discriminate.
Qed.

Lemma parse_root_raise root e :
  parse_root int_of_string float_of_string root = Raise e ->
  parse_failure e = true.
Proof.
  unfold parse_root. intros H.
  apply bind_raise in H as [H|(testcases & _ & H)];
    apply result_mapM_raise_inv in H as (x & _ & H).
  - eapply parse_testcase_raise, H.
  - eapply parse_testsuite_raise, H.
Qed.

Lemma _parse_xml_file_raise file e :
  _parse_xml_file int_of_string float_of_string file = Raise e ->
  parse_failure e = true.
Proof.
  unfold _parse_xml_file. intros H.
  apply bind_raise in H as [H|(root & _ & H)].
  - destruct file; cbn in H; try discriminate; injection H as <-; reflexivity.
  - eapply parse_root_raise, H.
Qed.

Lemma _parse_xml_files_raise w e :
  _parse_xml_files int_of_string float_of_string w = Raise e ->
  parse_failure e = true.
Proof.
  unfold _parse_xml_files. intros H.
  apply bind_raise in H as [H|(testsuites & _ & [=])].
  apply foldM_raise_inv in H as (acc & file & _ & H).
  apply bind_raise in H as [H|(more & _ & [=])].
  eapply _parse_xml_file_raise, H.
Qed.

Lemma elem_of_glob w file_name file :
  (file_name, file) ∈ xml_dir w -> glob_match file_name = true -> file ∈ glob w.
Proof.
  intros Hin Hm. unfold glob. apply list_elem_of_fmap.
  exists (file_name, file). split; [reflexivity|].
  apply list_elem_of_filter. auto.
Qed.

Lemma _parse_xml_files_not_ok w file :
  file ∈ glob w ->
  is_ok (_parse_xml_file int_of_string float_of_string file) = false ->
  is_ok (_parse_xml_files int_of_string float_of_string w) = false.
Proof.
  intros Hin Hf. unfold _parse_xml_files.
  match goal with |- is_ok (?m ≫= _) = false =>
    assert (is_ok m = false) as H end.
  { apply foldM_not_ok with file; [exact Hin|]. intros acc.
    destruct (_parse_xml_file _ _ file); [discriminate | reflexivity]. }
  apply is_ok_false in H as [e H]. rewrite H. reflexivity.
Qed.

(** The first matching file that fails decides the exception. *)
Lemma _parse_xml_files_first_failure w before file_name file after e :
  xml_dir w = (before ++ (file_name, file) :: after)%list ->
  glob_match file_name = true ->
  Forall (fun entry =>
            glob_match (fst entry) = true ->
            is_ok (_parse_xml_file int_of_string float_of_string (snd entry))
            = true) before ->
  _parse_xml_file int_of_string float_of_string file = Raise e ->
  _parse_xml_files int_of_string float_of_string w = Raise e.
Proof.
  intros Hdir Hm Hbefore He. unfold _parse_xml_files, glob.
  rewrite Hdir, filter_app, filter_cons_True, fmap_app, fmap_cons by exact Hm.
  rewrite foldM_app.
  match goal with |- ((?m ≫= _) ≫= _) = _ =>
    assert (is_ok m = true) as Hok end.
  { apply foldM_all_ok.
    apply Forall_fmap, Forall_forall. intros entry Hin acc.
    apply list_elem_of_filter in Hin as [Hentry Hin].
    rewrite Forall_forall in Hbefore. specialize (Hbefore _ Hin Hentry).
    cbn. destruct (_parse_xml_file _ _ (snd entry)); [reflexivity | discriminate]. }
  apply is_ok_true in Hok as [acc ->]. cbn. rewrite He. reflexivity.
Qed.

End ParserProperties.

(** ** Test suites of a file *)

Section SuiteProperties.

Variable int_of_string : string -> option Z.
Variable float_of_string : string -> option spec_float.


Lemma parse_testsuite_testcases cases testsuite s :
  parse_testsuite int_of_string float_of_string cases testsuite = Ok s ->
  cases = testcases s.
Proof.
  unfold parse_testsuite, new_suite. intros H.
  repeat (apply bind_ok in H as (? & _ & H)).
  injection H as <-. reflexivity.
Qed.

(** C6: every suite built from a file carries the one list of all test cases
    of the file, a case per [<testcase>] element of the whole document in
    document order, however many [<testsuite>] elements the file has. *)
Theorem suites_share_all_cases (file : xml_file) (suites : list ReportTestSuite) :
  _parse_xml_file int_of_string float_of_string file = Ok suites ->
  exists root cases,
    file = Document root /\
    Forall2 (fun el c => parse_testcase float_of_string el = Ok c)
            (iter "testcase" root) cases /\
    Forall2 (fun el s =>
               parse_testsuite int_of_string float_of_string cases el = Ok s)
            (iter "testsuite" root) suites /\
    Forall (fun s => testcases s = cases) suites.
Proof.
  unfold _parse_xml_file, parse_root. intros H.
  apply bind_ok in H as (root & Hroot & H).
  apply bind_ok in H as (cases & Hcases & H).
  exists root, cases.
  split; [destruct file; cbn in Hroot; congruence|].
  split; [apply result_mapM_ok, Hcases|].
  apply result_mapM_ok in H. split; [exact H|].
  clear Hcases. induction H as [|el s els ss Hs _ IH]; constructor.
  - symmetry. eapply parse_testsuite_testcases, Hs.
  - exact IH.
Qed.

End SuiteProperties.

Lemma suites_share_all_cases_witness :
  _parse_xml_file sample_int sample_float (Document two_suites)
  = Ok two_suites_parsed /\
  exists root cases,
    Document two_suites = Document root /\
    Forall2 (fun el c => parse_testcase sample_float el = Ok c)
            (iter "testcase" root) cases /\
    Forall2 (fun el s => parse_testsuite sample_int sample_float cases el = Ok s)
            (iter "testsuite" root) two_suites_parsed /\
    Forall (fun s => testcases s = cases) two_suites_parsed.
Proof.
  assert (_parse_xml_file sample_int sample_float (Document two_suites)
          = Ok two_suites_parsed) as H by (vm_compute; reflexivity).
  split; [exact H|].
  exact (suites_share_all_cases sample_int sample_float _ _ H).
Defined.

Section SuiteAttributes.

Variable int_of_string : string -> option Z.
Variable float_of_string : string -> option spec_float.

Local Abbreviation parse_suite := (parse_testsuite int_of_string float_of_string).

Lemma missing_required_dec testsuite :
  missing_required testsuite \/ ~ missing_required testsuite.
Proof.
  unfold missing_required.
  destruct (attrib testsuite !! "name") eqn:E1;
    [|left; exists "name"; split; [in_required | done]].
  destruct (attrib testsuite !! "tests") eqn:E2;
    [|left; exists "tests"; split; [in_required | done]].
  destruct (attrib testsuite !! "errors") eqn:E3;
    [|left; exists "errors"; split; [in_required | done]].
  destruct (attrib testsuite !! "failures") eqn:E4;
    [|left; exists "failures"; split; [in_required | done]].
  destruct (attrib testsuite !! "time") eqn:E5;
    [|left; exists "time"; split; [in_required | done]].
  right. intros (key & Hkey & Hnone).
  unfold required_attributes in Hkey.
  repeat (apply elem_of_cons in Hkey as [->|Hkey]; [congruence|]).
  inversion Hkey.
Qed.

Lemma parse_testsuite_missing testsuite :
  missing_required testsuite ->
  exists key, key ∈ required_attributes /\ attrib testsuite !! key = None /\
              forall cases, parse_suite cases testsuite = Raise (KeyError key).
Proof.
  intros Hmiss. unfold parse_testsuite, attrib_item.
  destruct (attrib testsuite !! "name") eqn:E1;
    [|exists "name"; split; [in_required | done]].
  destruct (attrib testsuite !! "tests") eqn:E2;
    [|exists "tests"; split; [in_required | done]].
  destruct (attrib testsuite !! "errors") eqn:E3;
    [|exists "errors"; split; [in_required | done]].
  destruct (attrib testsuite !! "failures") eqn:E4;
    [|exists "failures"; split; [in_required | done]].
  destruct (attrib testsuite !! "time") eqn:E5;
    [|exists "time"; split; [in_required | done]].
  exfalso. destruct Hmiss as (key & Hkey & Hnone).
  unfold required_attributes in Hkey.
  repeat (apply elem_of_cons in Hkey as [->|Hkey]; [congruence|]).
  inversion Hkey.
Qed.

Lemma parse_testsuite_non_numeric testsuite :
  ~ missing_required testsuite ->
  non_numeric_count int_of_string testsuite ->
  exists v, int_of_string v = None /\
            forall cases, parse_suite cases testsuite = Raise (ValueError v).
Proof.
  intros Hpresent (key & v & Hkey & Hv & Hbad).
  unfold parse_testsuite, attrib_item, attrib_get, new_suite.
  destruct (attrib testsuite !! "name") eqn:E1;
    [|destruct Hpresent; exists "name"; split; [in_required | done]].
  destruct (attrib testsuite !! "tests") as [tests|] eqn:E2;
    [|destruct Hpresent; exists "tests"; split; [in_required | done]].
  destruct (attrib testsuite !! "errors") as [errors|] eqn:E3;
    [|destruct Hpresent; exists "errors"; split; [in_required | done]].
  destruct (attrib testsuite !! "failures") as [failures|] eqn:E4;
    [|destruct Hpresent; exists "failures"; split; [in_required | done]].
  destruct (attrib testsuite !! "time") eqn:E5;
    [|destruct Hpresent; exists "time"; split; [in_required | done]].
  cbn.
  destruct (int_of_string tests) eqn:I1; [|exists tests; done].
  destruct (int_of_string errors) eqn:I2; [|exists errors; done].
  destruct (int_of_string failures) eqn:I3; [|exists failures; done].
  destruct (attrib testsuite !! "skipped") as [skipped|] eqn:E6; cbn.
  - destruct (int_of_string skipped) eqn:I4; [|exists skipped; done].
    exfalso.
    repeat (apply elem_of_cons in Hkey as [->|Hkey]; [congruence|]).
    inversion Hkey.
  - exfalso.
    repeat (apply elem_of_cons in Hkey as [->|Hkey]; [congruence|]).
    inversion Hkey.
Qed.

Lemma parse_testsuite_skipped testsuite cases name tests errors failures time
    t e f tm :
  attrib testsuite !! "name" = Some name ->
  attrib testsuite !! "tests" = Some tests ->
  attrib testsuite !! "errors" = Some errors ->
  attrib testsuite !! "failures" = Some failures ->
  attrib testsuite !! "time" = Some time ->
  int_of_string tests = Some t ->
  int_of_string errors = Some e ->
  int_of_string failures = Some f ->
  float_of_string time = Some tm ->
  match attrib testsuite !! "skipped" with
  | None => parse_suite cases testsuite = Ok (MkSuite name t e f 0 tm cases)
  | Some v =>
      match int_of_string v with
      | Some s => parse_suite cases testsuite = Ok (MkSuite name t e f s tm cases)
      | None => parse_suite cases testsuite = Raise (ValueError v)
      end
  end.
Proof.
  intros E1 E2 E3 E4 E5 I1 I2 I3 F.
  unfold parse_testsuite, attrib_item, attrib_get, new_suite.
  rewrite E1, E2, E3, E4, E5. cbn. rewrite I1, I2, I3. cbn.
  destruct (attrib testsuite !! "skipped") as [v|]; cbn.
  - destruct (int_of_string v); cbn; [|reflexivity]. rewrite F. reflexivity.
  - rewrite F. reflexivity.
Qed.

(** C8: a [<testsuite>] element must carry [name], [tests], [errors],
    [failures] and [time]: parsing raises [KeyError] when one of them is
    absent and [ValueError] when a count is not an integer literal, both
    failures of the kind the specification names ParseError, and either
    makes the parsing of the whole file fail.  [skipped] alone is optional
    and counts as 0 when absent. *)
Theorem parse_testsuite_attributes (testsuite : element) :
  (missing_required testsuite ->
   exists key, key ∈ required_attributes /\ attrib testsuite !! key = None /\
               parse_failure (KeyError key) = true /\
               forall cases, parse_suite cases testsuite = Raise (KeyError key)) /\
  (~ missing_required testsuite ->
   non_numeric_count int_of_string testsuite ->
   exists v, int_of_string v = None /\
             parse_failure (ValueError v) = true /\
             forall cases, parse_suite cases testsuite = Raise (ValueError v)) /\
  (forall root,
     testsuite ∈ iter "testsuite" root ->
     missing_required testsuite \/ non_numeric_count int_of_string testsuite ->
     exists ex, parse_failure ex = true /\
                _parse_xml_file int_of_string float_of_string (Document root)
                = Raise ex) /\
  (forall cases name tests errors failures time t e f tm,
     attrib testsuite !! "name" = Some name ->
     attrib testsuite !! "tests" = Some tests ->
     attrib testsuite !! "errors" = Some errors ->
     attrib testsuite !! "failures" = Some failures ->
     attrib testsuite !! "time" = Some time ->
     int_of_string tests = Some t ->
     int_of_string errors = Some e ->
     int_of_string failures = Some f ->
     float_of_string time = Some tm ->
     attrib testsuite !! "skipped" = None ->
     parse_suite cases testsuite = Ok (MkSuite name t e f 0 tm cases)).
Proof.
  split; [|split; [|split]].
  - intros H. destruct (parse_testsuite_missing _ H) as (key & ? & ? & ?).
    exists key. auto.
  - intros H1 H2.
    destruct (parse_testsuite_non_numeric _ H1 H2) as (v & ? & ?).
    exists v. auto.
  - intros root Hin Hbad.
    assert (forall cases, is_ok (parse_suite cases testsuite) = false) as Hfail.
    { intros cases. destruct Hbad as [Hm|Hn].
      - destruct (parse_testsuite_missing _ Hm) as (key & _ & _ & ->).
        reflexivity.
      - destruct (missing_required_dec testsuite) as [Hm|Hp].
        + destruct (parse_testsuite_missing _ Hm) as (key & _ & _ & ->).
          reflexivity.
        + destruct (parse_testsuite_non_numeric _ Hp Hn) as (v & _ & ->).
          reflexivity. }
    destruct (_parse_xml_file int_of_string float_of_string (Document root))
      as [suites|ex] eqn:E.
    + exfalso.
      change (parse_root int_of_string float_of_string root = Ok suites) in E.
      unfold parse_root in E.
      apply bind_ok in E as (cases & _ & E).
      pose proof (result_mapM_raise _ _ _ Hin (Hfail cases)) as H.
      rewrite E in H. discriminate.
    + exists ex. split; [|reflexivity].
      eapply _parse_xml_file_raise, E.
  - intros cases name tests errors failures time t e f tm
           E1 E2 E3 E4 E5 I1 I2 I3 F Hs.
    pose proof (parse_testsuite_skipped testsuite cases _ _ _ _ _ _ _ _ _
                  E1 E2 E3 E4 E5 I1 I2 I3 F) as H.
    rewrite Hs in H. exact H.
Qed.

End SuiteAttributes.

(** ** Generating the report *)

Section ReportProperties.

Variable int_of_string : string -> option Z.
Variable float_of_string : string -> option spec_float.
Variable py : python.
Variable render : gmap string template_value -> string.
Variable report_file_path : string.

Local Abbreviation run_report :=
  (report int_of_string float_of_string py render report_file_path).
Local Abbreviation parse_files := (_parse_xml_files int_of_string float_of_string).
Local Abbreviation parse_file := (_parse_xml_file int_of_string float_of_string).

(** When the parser raises, [report] raises the same exception and has done
    nothing but log its first message. *)
Lemma report_parse_raise w e :
  parse_files w = Raise e ->
  run_report w = (with_log "Generating JUnit HTML report..." w, Raise e).
Proof.
  intros H. unfold report.
  change (parse_files (with_log "Generating JUnit HTML report..." w))
    with (parse_files w).
  rewrite H. reflexivity.
Qed.

Lemma report_file_changed w :
  report_file (fst (run_report w)) <> report_file w ->
  is_ok (parse_files w) = true.
Proof.
  destruct (parse_files w) eqn:E; [reflexivity|].
  rewrite (report_parse_raise _ _ E). cbn. congruence.
Qed.

Lemma report_file_not_ok w file_name file :
  (file_name, file) ∈ xml_dir w -> glob_match file_name = true ->
  is_ok (parse_file file) = false ->
  exists e, parse_failure e = true /\
            run_report w = (with_log "Generating JUnit HTML report..." w, Raise e).
Proof.
  intros Hin Hm Hbad.
  pose proof (_parse_xml_files_not_ok int_of_string float_of_string w file
                (elem_of_glob _ _ _ Hin Hm) Hbad) as H.
  apply is_ok_false in H as [e H]. exists e.
  split; [eapply _parse_xml_files_raise, H | apply report_parse_raise, H].
Qed.

(** C5: a matching file that is not well-formed, or cannot be read, makes
    [report] raise a parse failure, which is the [ParseError] (or [IOError])
    of [ET.parse] itself when the matching files listed before it parse; the
    call then leaves the report file and the report directory as they were,
    and a report file that did change means that every file was parsed
    first. *)
Theorem report_malformed_no_write (w : world) (file_name : string) (file : xml_file) :
  (file_name, file) ∈ xml_dir w ->
  glob_match file_name = true ->
  file = Malformed \/ file = Unreadable ->
  (exists e, parse_failure e = true /\ snd (run_report w) = Raise e) /\
  (forall before after,
     xml_dir w = (before ++ (file_name, file) :: after)%list ->
     Forall (fun entry =>
               glob_match (fst entry) = true ->
               is_ok (parse_file (snd entry)) = true) before ->
     snd (run_report w)
     = Raise (match file with Unreadable => IOError | _ => XmlParseError end)) /\
  report_file (fst (run_report w)) = report_file w /\
  report_dir_exists (fst (run_report w)) = report_dir_exists w /\
  xml_dir (fst (run_report w)) = xml_dir w /\
  (forall w' : world,
     report_file (fst (run_report w')) <> report_file w' ->
     is_ok (parse_files w') = true).
Proof.
  intros Hin Hm Hfile.
  assert (is_ok (parse_file file) = false) as Hbad
    by (destruct Hfile as [-> | ->]; reflexivity).
  split; [|split].
  - destruct (report_file_not_ok _ _ _ Hin Hm Hbad) as (e & He & ->). eauto.
  - intros before after Hdir Hbefore.
    rewrite (report_parse_raise w
               (match file with Unreadable => IOError | _ => XmlParseError end));
      [reflexivity|].
    eapply _parse_xml_files_first_failure; [exact Hdir | exact Hm | exact Hbefore |].
    destruct Hfile as [-> | ->]; reflexivity.
  - destruct (report_file_not_ok _ _ _ Hin Hm Hbad) as (e & He & ->). cbn.
    repeat split. apply report_file_changed.
Qed.

End ReportProperties.

Lemma report_malformed_no_write_witness :
  (exists e, parse_failure e = true /\
     snd (report sample_int sample_float Python2 sample_render
                 "reports/junit-report.html" broken_world) = Raise e) /\
  report_file (fst (report sample_int sample_float Python2 sample_render
                           "reports/junit-report.html" broken_world))
  = Some "<html>old</html>".
Proof.
  pose proof (report_malformed_no_write sample_int sample_float Python2
                sample_render "reports/junit-report.html" broken_world
                "TEST-b.xml" Malformed
                ltac:(repeat constructor) eq_refl (or_introl eq_refl)) as H.
  split; [exact (proj1 H) | exact (proj1 (proj2 (proj2 H)))].
Defined.

Section MissingType.

Variable int_of_string : string -> option Z.
Variable float_of_string : string -> option spec_float.
Variable py : python.
Variable render : gmap string template_value -> string.
Variable report_file_path : string.

Lemma parse_testcase_missing_type testcase f :
  f ∈ iter "failure" testcase \/ f ∈ iter "error" testcase ->
  attrib f !! "type" = None ->
  parse_testcase float_of_string testcase = Raise (KeyError "type").
Proof.
  intros Hin Hnone. unfold parse_testcase.
  assert (forall l, f ∈ l -> forall acc,
            foldM fault_step acc l = Raise (KeyError "type")) as Hloop.
  { intros l Hl acc.
    apply foldM_raise with f; [exact Hl | | ].
    - intros acc0 y _. apply fault_step_cases.
    - intros acc0. apply fault_step_raise, Hnone. }
  destruct Hin as [Hin|Hin].
  - rewrite (Hloop _ Hin None). reflexivity.
  - destruct (foldM fault_step None (iter "failure" testcase)) as [failure|e] eqn:E.
    + cbn. rewrite (Hloop _ Hin None). reflexivity.
    + apply foldM_fault_step_raise in E as ->. reflexivity.
Qed.

(** C10: a [<failure>] or [<error>] element without a [type] attribute
    under a test case makes the parsing of the test case raise
    [KeyError('type')], hence the parsing of the file and the whole report
    fail, although the display record of a test case never shows the type of
    its failure or error. *)
Theorem missing_type_aborts (root testcase f : element) :
  testcase ∈ iter "testcase" root ->
  f ∈ iter "failure" testcase \/ f ∈ iter "error" testcase ->
  attrib f !! "type" = None ->
  parse_testcase float_of_string testcase = Raise (KeyError "type") /\
  is_ok (_parse_xml_file int_of_string float_of_string (Document root)) = false /\
  (forall w file_name,
     (file_name, Document root) ∈ xml_dir w -> glob_match file_name = true ->
     exists e,
       report int_of_string float_of_string py render report_file_path w
       = (with_log "Generating JUnit HTML report..." w, Raise e)) /\
  (forall name time failure error skipped type1 type2,
     Case.as_dict (MkCase name time (with_type type1 <$> failure)
                              (with_type type2 <$> error) skipped)
     = Case.as_dict (MkCase name time failure error skipped)).
Proof.
  intros Hcase Hf Hnone.
  pose proof (parse_testcase_missing_type _ _ Hf Hnone) as Hraise.
  assert (is_ok (_parse_xml_file int_of_string float_of_string (Document root))
          = false) as Hfile.
  { change (is_ok (parse_root int_of_string float_of_string root) = false).
    unfold parse_root.
    pose proof (result_mapM_raise (parse_testcase float_of_string) _ _ Hcase) as H.
    rewrite Hraise in H. specialize (H eq_refl).
    apply is_ok_false in H as [e ->]. reflexivity. }
  split; [exact Hraise|]. split; [exact Hfile|]. split.
  - intros w file_name Hin Hm.
    destruct (report_file_not_ok int_of_string float_of_string py render
                report_file_path w _ _ Hin Hm Hfile) as (e & _ & H).
    eauto.
  - intros name time failure error skipped type1 type2.
    unfold Case.as_dict, Case.icon_class.
    destruct failure as [[]|], error as [[]|]; reflexivity.
Qed.

End MissingType.

Lemma missing_type_aborts_witness :
  parse_testcase sample_float
    (elem "testcase" [("name", "a1")] None [elem "failure" [] (Some "msg") []])
  = Raise (KeyError "type") /\
  is_ok (_parse_xml_file sample_int sample_float (Document untyped_failure))
  = false.
Proof.
  pose proof (missing_type_aborts sample_int sample_float Python2 sample_render
                "reports/junit-report.html" untyped_failure
                (elem "testcase" [("name", "a1")] None
                      [elem "failure" [] (Some "msg") []])
                (elem "failure" [] (Some "msg") [])) as H.
  refine ((fun H' => conj (proj1 H') (proj1 (proj2 H'))) (H _ _ _)).
  - vm_compute. repeat constructor.
  - left. vm_compute. repeat constructor.
  - vm_compute. reflexivity.
Defined.

(** ** Display record of a suite *)

Lemma get_counts_suite_dict s :
  Suite.get_counts (suite_dict s)
  = Ok (tests s, errors s, failures s, skipped s).
Proof. reflexivity. Qed.

Lemma get_counts_insert d key v :
  key ∉ ["tests"; "errors"; "failures"; "skipped"] ->
  Suite.get_counts (<[key := v]> d) = Suite.get_counts d.
Proof.
  intros Hkey. unfold Suite.get_counts, Suite.get_count.
  rewrite !lookup_insert_ne; [reflexivity| | | |];
    intros ->; apply Hkey; repeat constructor.
Qed.

Lemma as_dict_fresh py s :
  Suite.as_dict py (suite_dict s) =
  match Suite.success_rate (tests s) (errors s) (failures s) (skipped s) with
  | Raise ex => (suite_dict s, Raise ex)
  | Ok rate =>
      let d :=
        <["testcases" := converted py (testcases s)]>
          (<["icon_class" :=
               VAtom (AStr (Suite.icon_class (tests s) (errors s) (failures s)
                                             (skipped s)))]>
             (<["success" := VAtom (AStr rate)]> (suite_dict s))) in
      (d, Ok d)
  end.
Proof.
  unfold Suite.as_dict. rewrite get_counts_suite_dict. cbn -[suite_dict].
  destruct (Suite.success_rate _ _ _ _) as [rate|ex]; [|reflexivity].
  rewrite get_counts_insert, get_counts_suite_dict.
  2:{ rewrite !elem_of_cons, elem_of_nil. intros [|[|[|[|[]]]]]; discriminate. }
  cbn -[suite_dict].
  rewrite !lookup_insert_ne by discriminate.
  change (suite_dict s !! "testcases") with (Some (VCases (testcases s))).
  destruct py; reflexivity.
Qed.





(** ** Binary64 arithmetic in the normal range *)

Lemma digits2_pos_size p : digits2_pos p = Pos.size p.
Proof. induction p; cbn; congruence. Qed.

Lemma Zdigits2_log2 m : 0 < m -> Zdigits2 m = Z.log2 m + 1.
Proof.
  destruct m as [|p|p]; try lia. intros _. cbn.
  rewrite digits2_pos_size. destruct p; cbn; lia.
Qed.

Lemma Zdigits2_nonneg m : 0 <= Zdigits2 m.
Proof. destruct m; cbn; lia. Qed.

Lemma Zdigits2_pos m : 0 < m -> 0 < Zdigits2 m.
Proof. intros H. rewrite Zdigits2_log2 by lia. pose proof (Z.log2_nonneg m). lia. Qed.

(** [m] has at most [k] binary digits exactly when it is below [2^k]. *)
Lemma Zdigits2_le m k : 0 < m -> 0 <= k -> (Zdigits2 m <= k <-> m < 2 ^ k).
Proof.
  intros Hm Hk. rewrite Zdigits2_log2 by lia.
  rewrite (Z.log2_lt_pow2 m k) by lia. lia.
Qed.

Lemma Zdigits2_ge m k : 0 < m -> 0 < k -> (k <= Zdigits2 m <-> 2 ^ (k - 1) <= m).
Proof.
  intros Hm Hk. rewrite Zdigits2_log2 by lia.
  rewrite (Z.log2_le_pow2 m (k - 1)) by lia. lia.
Qed.

Lemma Zdigits2_mono a b : 0 < a -> a <= b -> Zdigits2 a <= Zdigits2 b.
Proof.
  intros Ha Hab. rewrite !Zdigits2_log2 by lia.
  pose proof (Z.log2_le_mono a b Hab). lia.
Qed.

Lemma Zdigits2_succ m : 0 < m -> Zdigits2 (m + 1) <= Zdigits2 m + 1.
Proof.
  intros Hm.
  apply Zdigits2_le; [lia | pose proof (Zdigits2_nonneg m); lia |].
  assert (m < 2 ^ Zdigits2 m) as H
    by (apply Zdigits2_le; [lia | apply Zdigits2_nonneg | lia]).
  rewrite Z.pow_add_r by (try apply Zdigits2_nonneg; lia).
  lia.
Qed.

Lemma Zdigits2_shiftr m n :
  0 < m -> 0 <= n -> n < Zdigits2 m -> 
  0 < Z.shiftr m n /\ Zdigits2 (Z.shiftr m n) = Zdigits2 m - n.
Proof.
  intros Hm Hn Hlt.
  assert (0 < Z.shiftr m n) as Hpos.
  { rewrite Z.shiftr_div_pow2 by lia.
    apply Z.div_str_pos. split; [apply Z.pow_pos_nonneg; lia|].
    assert (n + 1 <= Zdigits2 m) as H by lia.
    apply Zdigits2_ge in H; [|lia|lia].
    replace (n + 1 - 1) with n in H by lia. exact H. }
  split; [exact Hpos|].
  rewrite !Zdigits2_log2 by lia.
  rewrite Z.log2_shiftr by lia.
  rewrite Zdigits2_log2 in Hlt by lia. lia.
Qed.

Lemma Zdigits2_mul_pow2 m n :
  0 < m -> 0 <= n -> Zdigits2 (m * 2 ^ n) = Zdigits2 m + n.
Proof.
  intros Hm Hn.
  assert (0 < 2 ^ n) by (apply Z.pow_pos_nonneg; lia).
  rewrite !Zdigits2_log2 by nia.
  rewrite Z.log2_mul_pow2 by lia. lia.
Qed.

Lemma Zdigits2_mul a b :
  0 < a -> 0 < b ->
  Zdigits2 a + Zdigits2 b - 1 <= Zdigits2 (a * b) <= Zdigits2 a + Zdigits2 b.
Proof.
  intros Ha Hb.
  pose proof (Zdigits2_pos a Ha). pose proof (Zdigits2_pos b Hb).
  assert (a < 2 ^ Zdigits2 a) by (apply Zdigits2_le; lia).
  assert (b < 2 ^ Zdigits2 b) by (apply Zdigits2_le; lia).
  assert (2 ^ (Zdigits2 a - 1) <= a) by (apply Zdigits2_ge; lia).
  assert (2 ^ (Zdigits2 b - 1) <= b) by (apply Zdigits2_ge; lia).
  assert (0 < 2 ^ (Zdigits2 a - 1)) by (apply Z.pow_pos_nonneg; lia).
  assert (0 < 2 ^ (Zdigits2 b - 1)) by (apply Z.pow_pos_nonneg; lia).
  split.
  - destruct (Z.eq_dec (Zdigits2 a + Zdigits2 b - 1) 0) as [E|E]; [lia|].
    apply Zdigits2_ge; [nia | lia |].
    replace (Zdigits2 a + Zdigits2 b - 1 - 1)
      with ((Zdigits2 a - 1) + (Zdigits2 b - 1)) by lia.
    rewrite Z.pow_add_r by lia. nia.
  - apply Zdigits2_le; [nia | lia |].
    rewrite Z.pow_add_r by lia. nia.
Qed.

(** ** Shifting and rounding *)

Lemma shr_1_m mrs : 0 <= shr_m mrs -> shr_m (shr_1 mrs) = Z.div2 (shr_m mrs).
Proof.
  destruct mrs as [m r s]. cbn. destruct m as [|[p|p|]|p]; cbn; try reflexivity; lia.
Qed.

Lemma shr_1_nonneg mrs : 0 <= shr_m mrs -> 0 <= shr_m (shr_1 mrs).
Proof.
  intros H. rewrite shr_1_m by assumption.
  rewrite Z.div2_div. apply Z.div_pos; lia.
Qed.

Lemma iter_pos_shr_1 p mrs :
  0 <= shr_m mrs ->
  shr_m (SpecFloat.iter_pos shr_1 p mrs) = Z.shiftr (shr_m mrs) (Zpos p).
Proof.
  revert mrs. induction p as [p IH|p IH|]; intros mrs Hm; cbn [SpecFloat.iter_pos].
  - assert (0 <= shr_m (shr_1 mrs)) as H1 by (apply shr_1_nonneg, Hm).
    assert (0 <= shr_m (SpecFloat.iter_pos shr_1 p (shr_1 mrs))) as H2.
    { rewrite IH by assumption. apply Z.shiftr_nonneg. assumption. }
    rewrite IH, IH, shr_1_m by assumption.
    rewrite Z.div2_spec, !Z.shiftr_shiftr by lia.
    f_equal. lia.
  - assert (0 <= shr_m (SpecFloat.iter_pos shr_1 p mrs)) as H2.
    { rewrite IH by assumption. apply Z.shiftr_nonneg. assumption. }
    rewrite IH, IH by assumption.
    rewrite Z.shiftr_shiftr by lia. f_equal. lia.
  - rewrite shr_1_m by assumption. apply Z.div2_spec.
Qed.

Lemma loc_of_shr_record_of_loc m l :
  loc_of_shr_record (shr_record_of_loc m l) = l.
Proof. destruct l as [|[]]; reflexivity. Qed.

Lemma shr_m_record_of_loc m l : shr_m (shr_record_of_loc m l) = m.
Proof. destruct l as [|[]]; reflexivity. Qed.

(** In the normal range, [shr_fexp] leaves a positive mantissa of at most
    53 digits... *)
Lemma shr_fexp_normal m e l :
  0 < m -> - 1021 <= Zdigits2 m + e ->
  exists mrs,
    shr_fexp prec emax m e l = (mrs, Z.max e (Zdigits2 m + e - 53)) /\
    0 < shr_m mrs /\
    Zdigits2 (shr_m mrs) + Z.max e (Zdigits2 m + e - 53) = Zdigits2 m + e.
Proof.
  intros Hm HD. unfold shr_fexp, shr, fexp, emin, prec, emax.
  replace (Z.max (Zdigits2 m + e - 53) (3 - 1024 - 53))
    with (Zdigits2 m + e - 53) by lia.
  destruct (Zdigits2 m + e - 53 - e) as [|p|p] eqn:En.
  - exists (shr_record_of_loc m l). rewrite shr_m_record_of_loc.
    split; [f_equal; lia|]. split; lia.
  - exists (SpecFloat.iter_pos shr_1 p (shr_record_of_loc m l)).
    rewrite iter_pos_shr_1, shr_m_record_of_loc
      by (rewrite shr_m_record_of_loc; lia).
    destruct (Zdigits2_shiftr m (Zpos p)) as [Hpos Hd]; [lia | lia | lia |].
    split; [f_equal; lia|]. split; [exact Hpos|]. rewrite Hd. lia.
  - exists (shr_record_of_loc m l). rewrite shr_m_record_of_loc.
    split; [f_equal; lia|]. split; lia.
Qed.

Lemma round_nearest_even_bounds m l :
  m <= round_nearest_even m l <= m + 1.
Proof.
  unfold round_nearest_even. destruct l as [|[]]; try lia.
  destruct (Z.even m); lia.
Qed.

(** Rounding in the normal range: a positive mantissa [mx] at exponent
    [ex] whose magnitude [Zdigits2 mx + ex] lies between -1021 and 1023
    rounds to a finite nonzero float of the same sign, of the same magnitude
    or one more. *)
Lemma binary_round_aux_normal sx mx ex lx :
  0 < mx -> - 1021 <= Zdigits2 mx + ex <= 1023 -> ex <= 971 ->
  exists m e,
    binary_round_aux prec emax sx mx ex lx = S754_finite sx m e /\
    Zdigits2 mx + ex <= Zdigits2 (Zpos m) + e <= Zdigits2 mx + ex + 1 /\
    ex <= e <= 971.
Proof.
  intros Hm HD Hex. unfold binary_round_aux.
  destruct (shr_fexp_normal mx ex lx) as (mrs' & -> & Hpos' & Hd'); [lia|lia|].
  set (e' := Z.max ex (Zdigits2 mx + ex - 53)) in *.
  set (m1 := round_nearest_even (shr_m mrs') (loc_of_shr_record mrs')).
  pose proof (round_nearest_even_bounds (shr_m mrs') (loc_of_shr_record mrs'))
    as Hround. fold m1 in Hround.
  assert (Zdigits2 (shr_m mrs') <= Zdigits2 m1 <= Zdigits2 (shr_m mrs') + 1) as Hd1.
  { split; [apply Zdigits2_mono; lia|].
    etransitivity; [|apply Zdigits2_succ; lia].
    apply Zdigits2_mono; lia. }
  destruct (shr_fexp_normal m1 e' loc_Exact) as (mrs'' & -> & Hpos'' & Hd'');
    [lia|lia|].
  destruct (shr_m mrs'') as [|m|m] eqn:Em; try lia.
  assert (Z.max e' (Zdigits2 m1 + e' - 53) <= 971) as He'' by lia.
  unfold emax, prec. apply Z.leb_le in He''.
  replace (1024 - 53) with 971 by reflexivity. rewrite He''.
  apply Z.leb_le in He''.
  eexists _, _. split; [reflexivity|]. lia.
Qed.

Lemma Zpos_iter_xO m d : Zpos (Pos.iter xO m d) = Zpos m * 2 ^ Zpos d.
Proof.
  induction d as [|d IH] using Pos.peano_ind.
  - cbn. lia.
  - rewrite Pos.iter_succ, Pos2Z.inj_succ, Z.pow_succ_r by lia.
    rewrite Pos2Z.inj_xO, IH. lia.
Qed.

Lemma shl_align_spec mx ex ex' :
  exists mz ez,
    shl_align mx ex ex' = (mz, ez) /\
    Zdigits2 (Zpos mz) + ez = Zdigits2 (Zpos mx) + ex /\
    ez = Z.min ex ex'.
Proof.
  unfold shl_align. destruct (ex' - ex) as [|d|d] eqn:E.
  - exists mx, ex. repeat split; lia.
  - exists mx, ex. repeat split; lia.
  - exists (Pos.iter xO mx d), ex'. split; [reflexivity|].
    rewrite Zpos_iter_xO, Zdigits2_mul_pow2 by lia. lia.
Qed.

(** Conversion of a nonzero integer below [2^1000] in magnitude. *)
Lemma binary_normalize_int n :
  n <> 0 -> Z.abs n < 2 ^ 1000 ->
  exists m e,
    binary_normalize prec emax n 0 false = S754_finite (n <? 0) m e /\
    1 <= Zdigits2 (Zpos m) + e <= 1001 /\ e <= 971.
Proof.
  intros Hn Hlt.
  assert (forall s p, Zpos p < 2 ^ 1000 ->
            exists m e,
              binary_round prec emax s p 0 = S754_finite s m e /\
              1 <= Zdigits2 (Zpos m) + e <= 1001 /\ e <= 971) as Hround.
  { intros s p Hp. unfold binary_round.
    destruct (shl_align_spec p 0 (fexp prec emax (Zpos (digits2_pos p) + 0)))
      as (mz & ez & -> & Hd & Hez).
    assert (1 <= Zdigits2 (Zpos p) <= 1000) as Hdp.
    { split; [pose proof (Zdigits2_pos (Zpos p)); lia|].
      apply Zdigits2_le; lia. }
    destruct (binary_round_aux_normal s (Zpos mz) ez loc_Exact)
      as (m & e & -> & HD & He); [lia | lia | lia |].
    exists m, e. split; [reflexivity|]. lia. }
  destruct n as [|p|p]; [lia | |]; cbn [binary_normalize Z.ltb Z.compare].
  - apply Hround. lia.
  - apply Hround. lia.
Qed.

Lemma Zdigits2_div a b :
  0 < a -> 0 < b -> Zdigits2 b < Zdigits2 a ->
  0 < a / b /\
  Zdigits2 a - Zdigits2 b <= Zdigits2 (a / b) <= Zdigits2 a - Zdigits2 b + 1.
Proof.
  intros Ha Hb Hlt.
  pose proof (Zdigits2_pos a Ha) as Hda. pose proof (Zdigits2_pos b Hb) as Hdb.
  set (da := Zdigits2 a) in *. set (db := Zdigits2 b) in *.
  assert (a < 2 ^ da) as Ha_up by (apply Zdigits2_le; lia).
  assert (b < 2 ^ db) as Hb_up by (apply Zdigits2_le; lia).
  assert (2 ^ (da - 1) <= a) as Ha_low by (apply Zdigits2_ge; lia).
  assert (2 ^ (db - 1) <= b) as Hb_low by (apply Zdigits2_ge; lia).
  assert (0 < 2 ^ (db - 1)) as Hp1 by (apply Z.pow_pos_nonneg; lia).
  assert (0 < 2 ^ (da - db - 1)) as Hp2 by (apply Z.pow_pos_nonneg; lia).
  assert (0 < 2 ^ (da - db + 1)) as Hp3 by (apply Z.pow_pos_nonneg; lia).
  assert (2 ^ (da - 1) = 2 ^ db * 2 ^ (da - db - 1)) as E1.
  { rewrite <- Z.pow_add_r by lia. f_equal. lia. }
  assert (2 ^ da = 2 ^ (db - 1) * 2 ^ (da - db + 1)) as E2.
  { rewrite <- Z.pow_add_r by lia. f_equal. lia. }
  assert (2 ^ (da - db - 1) <= a / b) as Hlow.
  { apply Z.div_le_lower_bound; [lia|]. nia. }
  assert (a / b < 2 ^ (da - db + 1)) as Hup.
  { apply Z.div_lt_upper_bound; [lia|]. nia. }
  split; [lia|]. split.
  - apply Zdigits2_ge; [lia | lia |].
    replace (da - db - 1) with (da - db - 1) by lia. exact Hlow.
  - apply Zdigits2_le; [lia | lia | exact Hup].
Qed.

Lemma fexp_eq x : fexp prec emax x = Z.max (x - 53) (-1074).
Proof. reflexivity. Qed.

Lemma SFmul_100_normal s m e :
  1 <= magnitude m e <= 1001 -> e <= 971 ->
  exists m' e',
    SFmul prec emax (S754_finite s m e) float_100 = S754_finite s m' e' /\
    7 <= magnitude m' e' <= 1009 /\ e' <= 971.
Proof.
  unfold magnitude. intros HD He. unfold float_100, SFmul.
  pose proof (Zdigits2_mul (Zpos m) 7036874417766400 eq_refl eq_refl) as Hmul.
  change (Zdigits2 7036874417766400) with 53 in Hmul.
  change (Zpos m * 7036874417766400) with (Zpos (m * 7036874417766400)) in Hmul.
  destruct (binary_round_aux_normal (xorb s false)
              (Zpos (m * 7036874417766400)) (e + -46) loc_Exact)
    as (m' & e' & -> & HD' & He'); [lia | lia | lia |].
  rewrite xorb_false_r. exists m', e'. split; [reflexivity|]. lia.
Qed.

Lemma div_eucl_div a b : Z.div_eucl a b = (a / b, a mod b).
Proof.
  unfold Z.div, Z.modulo. destruct (Z.div_eucl a b). reflexivity.
Qed.

Lemma SFdiv_normal sy my ey st mt et :
  7 <= magnitude my ey <= 1009 -> 1 <= magnitude mt et <= 1001 ->
  exists m e,
    SFdiv prec emax (S754_finite sy my ey) (S754_finite st mt et)
    = S754_finite (xorb sy st) m e.
Proof.
  unfold magnitude. intros Hy Ht. unfold SFdiv, SFdiv_core_binary.
  set (d1 := Zdigits2 (Zpos my)) in *. set (d2 := Zdigits2 (Zpos mt)) in *.
  assert (0 < d1) as Hd1 by (apply Zdigits2_pos; lia).
  assert (0 < d2) as Hd2 by (apply Zdigits2_pos; lia).
  rewrite fexp_eq.
  replace (Z.max (d1 + ey - (d2 + et) - 53) (-1074))
    with (d1 + ey - (d2 + et) - 53) by lia.
  set (e' := Z.min (d1 + ey - (d2 + et) - 53) (ey - et)).
  assert (exists s, ey - et - e' = s /\ 0 <= s /\ d2 + 53 <= d1 + s) as (s & Es & Hs0 & Hs).
  { eexists. split; [reflexivity|]. unfold e'. lia. }
  rewrite Es.
  assert (exists m', match s with
                     | 0 => Zpos my
                     | Zpos _ => Z.shiftl (Zpos my) s
                     | Zneg _ => 0
                     end = m' /\ 0 < m' /\ Zdigits2 m' = d1 + s)
    as (m' & -> & Hm' & Hdm').
  { destruct s as [|p|p]; [| |lia].
    - exists (Zpos my). split; [reflexivity|]. split; [lia | unfold d1; lia].
    - exists (Zpos my * 2 ^ Zpos p).
      split; [apply Z.shiftl_mul_pow2; lia|].
      split; [apply Z.mul_pos_pos; [lia | apply Z.pow_pos_nonneg; lia]|].
      apply Zdigits2_mul_pow2; lia. }
  rewrite div_eucl_div.
  destruct (Zdigits2_div m' (Zpos mt)) as (Hq & Hdq); [lia | lia | fold d2; lia |].
  fold d2 in Hdq.
  destruct (binary_round_aux_normal (xorb sy st) (m' / Zpos mt) e'
              (new_location (Zpos mt) (m' mod Zpos mt)))
    as (m & e & -> & _ & _); [exact Hq | unfold e' in *; lia | unfold e'; lia |].
  eauto.
Qed.

(** ** The success rate *)

Lemma string_of_uint_digits d :
  all_digits (DecimalString.NilEmpty.string_of_uint d).
Proof.
  induction d; cbn; try exact I; (split; [unfold is_digit; cbn; lia | assumption]).
Qed.

Lemma decimal_digits n : decimal n <> EmptyString /\ all_digits (decimal n).
Proof.
  unfold decimal, DecimalString.NilZero.string_of_uint.
  destruct (N.to_uint n) eqn:E;
    try (split; [discriminate | rewrite <- E; apply string_of_uint_digits]).
  split; [discriminate | cbn; unfold is_digit; cbn; lia].
Qed.

Lemma digit_char_digit n : (n < 10)%N -> is_digit (digit_char n).
Proof.
  intros H. unfold is_digit, digit_char.
  rewrite N_ascii_embedding by lia. lia.
Qed.

(** The integer part of [h] hundredths is a nonempty string of digits and
    two digits follow the point. *)
Lemma fixed2_shape h :
  exists int_part d1 d2,
    fixed2 h = int_part ++ String "." (String d1 (String d2 EmptyString)) /\
    int_part <> EmptyString /\ all_digits int_part /\
    is_digit d1 /\ is_digit d2.
Proof.
  unfold fixed2. destruct (decimal_digits (h / 100)) as [Hne Hd].
  eexists _, _, _. split; [reflexivity|].
  split; [exact Hne|]. split; [exact Hd|].
  split; apply digit_char_digit.
  - apply N.Div0.div_lt_upper_bound. apply N.mod_upper_bound. lia.
  - apply N.mod_upper_bound. lia.
Qed.

Lemma float_of_int_normal n :
  n <> 0 -> Z.abs n < 2 ^ 1000 ->
  exists m e,
    float_of_int n = Ok (S754_finite (n <? 0) m e) /\
    1 <= magnitude m e <= 1001 /\ e <= 971.
Proof.
  intros Hn Hlt. unfold float_of_int, magnitude.
  destruct (binary_normalize_int n Hn Hlt) as (m & e & -> & H).
  eauto.
Qed.

(** The quotient computed by [success_rate] in the normal range. *)
Lemma success_rate_quotient successful test_count :
  test_count <> 0 -> Z.abs test_count < 2 ^ 1000 ->
  Z.abs successful < 2 ^ 1000 ->
  exists x total rate,
    float_of_int successful = Ok x /\ float_of_int test_count = Ok total /\
    float_div (float_mul x float_100) total = Ok rate /\
    match rate with
    | S754_zero s | S754_finite s _ _ =>
        s = xorb (successful <? 0) (test_count <? 0)
    | _ => False
    end.
Proof.
  intros Ht Hlt Hls.
  destruct (float_of_int_normal test_count Ht Hlt) as (mt & et & -> & HDt & Het).
  destruct (Z.eq_dec successful 0) as [-> | Hs].
  - eexists _, _, _. split; [reflexivity|]. split; [reflexivity|].
    split; reflexivity.
  - destruct (float_of_int_normal successful Hs Hls) as (mx & ex & -> & HDx & Hex).
    destruct (SFmul_100_normal (successful <? 0) mx ex HDx Hex)
      as (my & ey & Hmul & HDy & Hey).
    destruct (SFdiv_normal (successful <? 0) my ey (test_count <? 0) mt et HDy HDt)
      as (m & e & Hdiv).
    exists (S754_finite (successful <? 0) mx ex),
           (S754_finite (test_count <? 0) mt et),
           (S754_finite (xorb (successful <? 0) (test_count <? 0)) m e).
    split; [reflexivity|]. split; [reflexivity|].
    unfold float_mul, float_div. rewrite Hmul, Hdiv. split; reflexivity.
Qed.

(** C2, as stated, fails: one successful test out of 32768 is a rate of
    about 0.003 percent, which is printed with two decimals as [0.00%]
    although not every test was unsuccessful. *)
Lemma success_rate_zero_not_only_if :
  Suite.success_rate 32768 32767 0 0 = Ok "0.00%" /\ 32768 <> 32767 + 0 + 0.
Proof. split; [vm_compute; reflexivity | lia]. Qed.

(** C2, amended: [success_rate] is the literal [0.00%] for no tests.
    Otherwise, for counts below [2^1000] in magnitude, it is the float
    quotient [(tests - errors - failures - skipped) * 100.0 / tests] printed
    with a minus sign when negative, at least one digit before the point and
    exactly two after it, followed by [%].  For [tests > 0] the result is
    [0.00%] when [tests = errors + failures + skipped]. *)
Theorem success_rate_format (test_count error_count failure_count skipped_count : Z) :
  let successful := test_count - (error_count + failure_count + skipped_count) in
  (test_count = 0 ->
   Suite.success_rate test_count error_count failure_count skipped_count
   = Ok "0.00%") /\
  (test_count <> 0 -> Z.abs test_count < 2 ^ 1000 ->
   Z.abs successful < 2 ^ 1000 ->
   exists x total rate int_part d1 d2,
     float_of_int successful = Ok x /\ float_of_int test_count = Ok total /\
     float_div (float_mul x float_100) total = Ok rate /\
     Suite.success_rate test_count error_count failure_count skipped_count
     = Ok (format_2f rate ++ "%") /\
     format_2f rate
     = sign_string (xorb (successful <? 0) (test_count <? 0))
       ++ int_part ++ String "." (String d1 (String d2 EmptyString)) /\
     int_part <> EmptyString /\ all_digits int_part /\
     is_digit d1 /\ is_digit d2) /\
  (0 < test_count < 2 ^ 1000 -> successful = 0 ->
   Suite.success_rate test_count error_count failure_count skipped_count
   = Ok "0.00%").
Proof.
  intros successful. split; [|split].
  - intros ->. reflexivity.
  - intros Ht Hlt Hls. unfold Suite.success_rate.
    destruct (Z.eqb_spec test_count 0) as [|_]; [contradiction|].
    fold successful.
    destruct (success_rate_quotient successful test_count Ht Hlt Hls)
      as (x & total & rate & Hx & Htotal & Hrate & Hq).
    rewrite Hx. cbn [mbind result_bind]. rewrite Htotal. cbn [mbind result_bind].
    rewrite Hrate. cbn [mbind result_bind].
    exists x, total, rate.
    destruct rate as [s|s| |s m e];
      try contradiction; subst s; cbn [format_2f].
    + exists "0", "0"%char, "0"%char.
      splits; try assumption; try discriminate;
        try reflexivity; cbn; unfold is_digit; cbn; lia.
    + destruct (fixed2_shape (hundredths m e))
        as (int_part & d1 & d2 & -> & Hne & Hd & H1 & H2).
      exists int_part, d1, d2. splits; try assumption; reflexivity.
  - intros [Hpos Hlt] Hzero. unfold Suite.success_rate.
    destruct (Z.eqb_spec test_count 0) as [|_]; [lia|].
    fold successful. rewrite Hzero.
    destruct (float_of_int_normal test_count) as (m & e & -> & _); [lia|lia|].
    replace (test_count <? 0) with false by (symmetry; apply Z.ltb_ge; lia).
    reflexivity.
Qed.

(** ** The model at work *)

Example success_rate_examples :
  Suite.success_rate 8 1 0 0 = Ok "87.50%" /\
  Suite.success_rate 0 0 0 0 = Ok "0.00%" /\
  Suite.success_rate 3 5 0 0 = Ok "-66.67%" /\
  Suite.success_rate 800 799 0 0 = Ok "0.12%".
Proof. repeat split; vm_compute; reflexivity. Qed.

Example glob_match_examples :
  glob_match "TEST-a.xml" = true /\ glob_match "TEST-.xml" = true /\
  glob_match "TEST.xml" = false /\ glob_match "notes.txt" = false.
Proof. repeat split. Qed.

(** A directory with one well-formed file: the report is written. *)
Example report_written :
  let '(w, r) :=
    report sample_int sample_float Python2 sample_render
           "reports/junit-report.html"
           (World [("TEST-a.xml", Document two_suites)] false true None []) in
  r = Ok "reports/junit-report.html" /\
  report_file w = Some "50.00%" /\ report_dir_exists w = true.
Proof. vm_compute. repeat split. Qed.

(** The suites of the file come out worst first. *)
Example parsed_suites_sorted :
  match _parse_xml_files sample_int sample_float
          (World [("TEST-a.xml", Document two_suites)] false true None []) with
  | Ok suites => map name suites = ["B"; "A"]
  | Raise _ => False
  end.
Proof. vm_compute. reflexivity. Qed.

(** * Further properties of the module *)

(** ** Display record of a test case *)

(** X1: the display record of a test case holds [name], [time] and
    [icon_class]; it holds [message] exactly when the case has an error or
    a failure record, the error's message taking precedence; it holds no
    other key. *)
Theorem case_as_dict_entries (c : ReportTestCase) :
  Case.as_dict c !! "name" = Some (AStr (tc_name c)) /\
  Case.as_dict c !! "time" = Some (AFloat (tc_time c)) /\
  Case.as_dict c !! "icon_class" = Some (AStr (Case.icon_class c)) /\
  Case.as_dict c !! "message"
  = match tc_error c, tc_failure c with
    | Some e, _ => Some (atom_of_text (fault_message e))
    | None, Some f => Some (atom_of_text (fault_message f))
    | None, None => None
    end /\
  (forall key, key ∉ ["name"; "time"; "icon_class"; "message"] ->
               Case.as_dict c !! key = None).
Proof.
  unfold Case.as_dict.
  destruct (tc_error c) as [e|], (tc_failure c) as [f|]; splits;
    try reflexivity;
    intros key Hkey;
    rewrite ?lookup_insert_ne; try apply lookup_empty;
    intros <-; apply Hkey; repeat constructor.
Qed.

(** ** When a test case parses, and what it shows *)

Section CaseOutcome.

Variable float_of_string : string -> option spec_float.

Lemma has_tag_iter t e : has_tag t e <-> iter t e <> [].
Proof.
  unfold has_tag. split.
  - intros (x & Hx & Ht) E.
    assert (x ∈ iter t e) as Hin by (apply elem_of_iter; auto).
    rewrite E in Hin. inversion Hin.
  - intros Hne. destruct (iter t e) as [|x l] eqn:E; [congruence|].
    exists x. assert (x ∈ iter t e) as Hin by (rewrite E; left).
    apply elem_of_iter in Hin. tauto.
Qed.

Lemma foldM_fault_step_ok l acc :
  (forall f, f ∈ l -> attrib f !! "type" <> None) ->
  is_ok (foldM fault_step acc l) = true.
Proof.
  intros Hall. apply foldM_all_ok, Forall_forall. intros f Hf acc'.
  specialize (Hall f Hf). unfold fault_step, fault_of, attrib_item.
  destruct (attrib f !! "type"); [reflexivity | congruence].
Qed.

Lemma foldM_fault_step_typed l acc r :
  foldM fault_step acc l = Ok r ->
  forall f, f ∈ l -> attrib f !! "type" <> None.
Proof.
  intros H f Hf Hnone.
  rewrite (foldM_raise fault_step l f (KeyError "type") Hf) in H.
  - discriminate.
  - intros acc0 y _. apply fault_step_cases.
  - intros acc0. apply fault_step_raise, Hnone.
Qed.

Lemma foldM_fault_step_None l r :
  foldM fault_step None l = Ok r -> (r = None <-> l = []).
Proof.
  intros H. apply foldM_fault_step_last in H.
  destruct (last l) as [f|] eqn:El.
  - destruct H as (type & _ & ->). split; [discriminate|].
    intros ->. discriminate.
  - apply last_None in El. tauto.
Qed.

(** X2: a [<testcase>] element parses exactly when every [<failure>] and
    [<error>] element of its subtree has a [type], it has a [name], and its
    [time], when present, is accepted by [float]; otherwise the exception is
    [KeyError('type')] first, then [KeyError('name')], then the
    [ValueError] of [float]. *)
Theorem parse_testcase_outcome (testcase : element) :
  let typed :=
    forall f, f ∈ iter "failure" testcase \/ f ∈ iter "error" testcase ->
              attrib f !! "type" <> None in
  let timed :=
    forall t, attrib testcase !! "time" = Some t -> float_of_string t <> None in
  (is_ok (parse_testcase float_of_string testcase) = true <->
   typed /\ attrib testcase !! "name" <> None /\ timed) /\
  (~ typed ->
   parse_testcase float_of_string testcase = Raise (KeyError "type")) /\
  (typed -> attrib testcase !! "name" = None ->
   parse_testcase float_of_string testcase = Raise (KeyError "name")) /\
  (typed -> attrib testcase !! "name" <> None ->
   forall t, attrib testcase !! "time" = Some t -> float_of_string t = None ->
   parse_testcase float_of_string testcase = Raise (ValueError t)).
Proof.
  intros typed timed.
  assert (~ typed ->
          parse_testcase float_of_string testcase = Raise (KeyError "type"))
    as Huntyped.
  { intros Hn.
    destruct (foldM fault_step None (iter "failure" testcase)) as [r1|e1] eqn:E1.
    - destruct (foldM fault_step None (iter "error" testcase)) as [r2|e2] eqn:E2.
      + destruct Hn. intros f [Hf|Hf].
        * exact (foldM_fault_step_typed _ _ _ E1 f Hf).
        * exact (foldM_fault_step_typed _ _ _ E2 f Hf).
      + unfold parse_testcase. rewrite E1. cbn. rewrite E2. cbn.
        apply foldM_fault_step_raise in E2 as ->. reflexivity.
    - unfold parse_testcase. rewrite E1. cbn.
      apply foldM_fault_step_raise in E1 as ->. reflexivity. }
  assert (typed ->
          exists r1 r2,
            foldM fault_step None (iter "failure" testcase) = Ok r1 /\
            foldM fault_step None (iter "error" testcase) = Ok r2) as Htyped.
  { intros Ht.
    pose proof (foldM_fault_step_ok (iter "failure" testcase) None
                  (fun f Hf => Ht f (or_introl Hf))) as H1.
    pose proof (foldM_fault_step_ok (iter "error" testcase) None
                  (fun f Hf => Ht f (or_intror Hf))) as H2.
    apply is_ok_true in H1 as [r1 H1]. apply is_ok_true in H2 as [r2 H2].
    eauto. }
  split; [|split; [exact Huntyped|split]].
  - split.
    + intros Hok.
      assert (typed) as Ht.
      { intros f Hf Hnone.
        rewrite (parse_testcase_missing_type float_of_string _ _ Hf Hnone) in Hok.
        discriminate. }
      destruct (Htyped Ht) as (r1 & r2 & E1 & E2).
      unfold parse_testcase, new_case, attrib_item, attrib_get in Hok.
      rewrite E1, E2 in Hok. cbn in Hok.
      split; [exact Ht|].
      destruct (attrib testcase !! "name"); [|discriminate].
      split; [discriminate|].
      intros t Htime Hbad. rewrite Htime in Hok. cbn in Hok.
      rewrite Hbad in Hok. discriminate.
    + intros (Ht & Hname & Htime).
      destruct (Htyped Ht) as (r1 & r2 & E1 & E2).
      unfold parse_testcase, new_case, attrib_item, attrib_get.
      rewrite E1, E2. cbn.
      destruct (attrib testcase !! "name"); [|congruence]. cbn.
      destruct (attrib testcase !! "time") as [t|]; cbn; [|reflexivity].
      specialize (Htime t eq_refl).
      destruct (float_of_string t); [reflexivity | congruence].
  - intros Ht Hname.
    destruct (Htyped Ht) as (r1 & r2 & E1 & E2).
    unfold parse_testcase, attrib_item. rewrite E1, E2, Hname. reflexivity.
  - intros Ht Hname t Htime Hbad.
    destruct (Htyped Ht) as (r1 & r2 & E1 & E2).
    unfold parse_testcase, new_case, attrib_item, attrib_get.
    rewrite E1, E2, Htime. cbn.
    destruct (attrib testcase !! "name"); [|congruence]. cbn.
    rewrite Hbad. reflexivity.
Qed.

(** X3: what a parsed test case shows follows from the elements under it:
    skipped when a [<skipped>] element is present, else error when an
    [<error>] element is present, else failure when a [<failure>] element is
    present, and passed only when none of the three occurs. *)
Theorem parsed_case_icon_class (testcase : element) (c : ReportTestCase) :
  parse_testcase float_of_string testcase = Ok c ->
  (has_tag "skipped" testcase -> Case.icon_class c = test_skipped) /\
  (~ has_tag "skipped" testcase -> has_tag "error" testcase ->
   Case.icon_class c = test_error) /\
  (~ has_tag "skipped" testcase -> ~ has_tag "error" testcase ->
   has_tag "failure" testcase -> Case.icon_class c = test_failure) /\
  (Case.icon_class c = test_passed <->
   ~ has_tag "skipped" testcase /\ ~ has_tag "error" testcase /\
   ~ has_tag "failure" testcase).
Proof.
  unfold parse_testcase, new_case. intros H.
  apply bind_ok in H as (failure & Hf & H).
  apply bind_ok in H as (error & He & H).
  apply bind_ok in H as (name & Hn & H).
  apply bind_ok in H as (time & Ht & [= <-]).
  apply foldM_fault_step_None in Hf, He.
  rewrite !has_tag_iter. unfold Case.icon_class. cbn.
  pose proof (fold_left_skipped_step (iter "skipped" testcase) false) as Hs.
  assert (forall (r : option fault) (l : list element),
            (r = None <-> l = []) ->
            match r with Some _ => l <> [] | None => l = [] end) as Hcase.
  { intros [x|] l Hr; [intros E; apply Hr in E; discriminate | tauto]. }
  apply Hcase in Hf, He. clear Hcase.
  destruct (fold_left skipped_step (iter "skipped" testcase) false).
  - assert (iter "skipped" testcase <> []) as Hne
      by (destruct (proj1 Hs eq_refl); congruence).
    splits; try (intros; reflexivity); try tauto.
    split; [discriminate | tauto].
  - assert (iter "skipped" testcase = []) as Hnil.
    { destruct (iter "skipped" testcase); [reflexivity|].
      assert (false = true); [apply Hs; right|]; discriminate. }
    destruct error as [e|], failure as [f|]; cbn; splits;
      try (intros; reflexivity); try tauto;
      try (split; [discriminate | tauto]);
      try (split; [intros _; tauto | reflexivity]).
Qed.

End CaseOutcome.

Lemma parsed_case_icon_class_witness :
  parse_testcase sample_float flaky_testcase = Ok flaky_case /\
  Case.icon_class flaky_case = test_skipped.
Proof.
  assert (parse_testcase sample_float flaky_testcase = Ok flaky_case) as H
    by (vm_compute; reflexivity).
  split; [exact H|].
  apply (proj1 (parsed_case_icon_class sample_float _ _ H)).
  exists (elem "skipped" [] None []).
  split; [vm_compute; repeat constructor | reflexivity].
Defined.

(** ** When a file parses *)

Lemma result_mapM_all_ok {A B : Type} (f : A -> result B) l :
  is_ok (result_mapM f l) = true <-> forall x, x ∈ l -> is_ok (f x) = true.
Proof.
  induction l as [|x l IH]; cbn.
  - split; [inversion 2 | reflexivity].
  - split.
    + intros H y Hy. destruct (f x) eqn:Ex; [|discriminate]. cbn in H.
      destruct (result_mapM f l); [|discriminate].
      apply elem_of_cons in Hy as [->|Hy]; [rewrite Ex; reflexivity|].
      apply IH; [reflexivity | exact Hy].
    + intros H. pose proof (H x ltac:(left)) as Hx.
      apply is_ok_true in Hx as [y ->]. cbn.
      assert (is_ok (result_mapM f l) = true) as Hl
        by (apply IH; intros z Hz; apply H; right; exact Hz).
      apply is_ok_true in Hl as [ys ->]. reflexivity.
Qed.

Section FileOutcome.

Variable int_of_string : string -> option Z.
Variable float_of_string : string -> option spec_float.

Lemma parse_testsuite_ok_iff cases testsuite :
  is_ok (parse_testsuite int_of_string float_of_string cases testsuite) = true <->
  ~ missing_required testsuite /\
  ~ non_numeric_count int_of_string testsuite /\
  numeric_time float_of_string testsuite.
Proof.
  split.
  - intros Hok.
    assert (~ missing_required testsuite) as Hm.
    { intros Hm.
      destruct (parse_testsuite_missing int_of_string float_of_string _ Hm)
        as (key & _ & _ & H).
      rewrite H in Hok. discriminate. }
    split; [exact Hm|]. split.
    + intros Hn.
      destruct (parse_testsuite_non_numeric int_of_string float_of_string
                  _ Hm Hn) as (v & _ & H).
      rewrite H in Hok. discriminate.
    + intros v Hv Hbad.
      unfold parse_testsuite, new_suite, attrib_item in Hok. rewrite Hv in Hok.
      destruct (attrib testsuite !! "name"); [|discriminate].
      destruct (attrib testsuite !! "tests") as [tests|]; [|discriminate].
      destruct (attrib testsuite !! "errors") as [errors|]; [|discriminate].
      destruct (attrib testsuite !! "failures") as [failures|]; [|discriminate].
      cbn in Hok.
      destruct (int_of_string tests); [|discriminate].
      destruct (int_of_string errors); [|discriminate].
      destruct (int_of_string failures); [|discriminate].
      cbn in Hok.
      destruct (py_int int_of_string (attrib_get testsuite "skipped" 0));
        [|discriminate].
      cbn in Hok. rewrite Hbad in Hok. discriminate.
  - intros (Hm & Hn & Ht).
    unfold parse_testsuite, new_suite, attrib_item.
    destruct (attrib testsuite !! "name") eqn:E1;
      [|destruct Hm; exists "name"; split; [in_required | done]].
    destruct (attrib testsuite !! "tests") as [tests|] eqn:E2;
      [|destruct Hm; exists "tests"; split; [in_required | done]].
    destruct (attrib testsuite !! "errors") as [errors|] eqn:E3;
      [|destruct Hm; exists "errors"; split; [in_required | done]].
    destruct (attrib testsuite !! "failures") as [failures|] eqn:E4;
      [|destruct Hm; exists "failures"; split; [in_required | done]].
    destruct (attrib testsuite !! "time") as [time|] eqn:E5;
      [|destruct Hm; exists "time"; split; [in_required | done]].
    cbn.
    destruct (int_of_string tests) eqn:I1;
      [|destruct Hn; exists "tests", tests; split; [repeat constructor | done]].
    destruct (int_of_string errors) eqn:I2;
      [|destruct Hn; exists "errors", errors; split; [repeat constructor | done]].
    destruct (int_of_string failures) eqn:I3;
      [|destruct Hn; exists "failures", failures;
        split; [repeat constructor | done]].
    cbn.
    assert (is_ok (py_int int_of_string (attrib_get testsuite "skipped" 0))
            = true) as Hs.
    { unfold attrib_get.
      destruct (attrib testsuite !! "skipped") as [v|] eqn:E6; [|reflexivity].
      cbn. destruct (int_of_string v) eqn:I4; [reflexivity|].
      destruct Hn. exists "skipped", v. split; [repeat constructor | done]. }
    apply is_ok_true in Hs as [sk ->]. cbn.
    specialize (Ht time E5).
    destruct (float_of_string time); [reflexivity | congruence].
Qed.

Lemma parse_testsuite_name cases testsuite s :
  parse_testsuite int_of_string float_of_string cases testsuite = Ok s ->
  attrib testsuite !! "name" = Some (name s).
Proof.
  unfold parse_testsuite, new_suite, attrib_item. intros H.
  destruct (attrib testsuite !! "name"); [|discriminate]. cbn in H.
  repeat (apply bind_ok in H as (? & _ & H)).
  injection H as <-. reflexivity.
Qed.

(** X4: a file parses exactly when it is a well-formed document in which
    every [<testcase>] element parses and every [<testsuite>] element has
    its five required attributes, integer counts and a [time] accepted by
    [float]; the suites then come one per [<testsuite>] element, in document
    order. *)
Theorem _parse_xml_file_outcome (file : xml_file) :
  (is_ok (_parse_xml_file int_of_string float_of_string file) = true <->
   exists root,
     file = Document root /\
     (forall testcase, testcase ∈ iter "testcase" root ->
        is_ok (parse_testcase float_of_string testcase) = true) /\
     (forall testsuite, testsuite ∈ iter "testsuite" root ->
        ~ missing_required testsuite /\
        ~ non_numeric_count int_of_string testsuite /\
        numeric_time float_of_string testsuite)) /\
  (forall root suites,
     file = Document root ->
     _parse_xml_file int_of_string float_of_string file = Ok suites ->
     Forall2 (fun el s => attrib el !! "name" = Some (name s))
             (iter "testsuite" root) suites).
Proof.
  split.
  - split.
    + intros Hok. destruct file as [| |root]; try discriminate.
      exists root. split; [reflexivity|].
      change (is_ok (parse_root int_of_string float_of_string root) = true) in Hok.
      unfold parse_root in Hok.
      destruct (result_mapM (parse_testcase float_of_string)
                  (iter "testcase" root)) as [cases|] eqn:Ec; [|discriminate].
      cbn in Hok. split.
      * apply result_mapM_all_ok. rewrite Ec. reflexivity.
      * intros ts Hts. apply (parse_testsuite_ok_iff cases).
        revert ts Hts. apply result_mapM_all_ok. exact Hok.
    + intros (root & -> & Hc & Hs).
      change (is_ok (parse_root int_of_string float_of_string root) = true).
      unfold parse_root.
      apply result_mapM_all_ok in Hc. apply is_ok_true in Hc as [cases ->].
      cbn. apply result_mapM_all_ok. intros ts Hts.
      apply parse_testsuite_ok_iff, Hs, Hts.
  - intros root suites -> H.
    change (parse_root int_of_string float_of_string root = Ok suites) in H.
    unfold parse_root in H. apply bind_ok in H as (cases & _ & H).
    apply result_mapM_ok in H.
    eapply Forall2_impl; [exact H|].
    intros el s Hs. eapply parse_testsuite_name, Hs.
Qed.

End FileOutcome.

(** ** Sorting the suites *)










Section FilesProperties.

Variable int_of_string : string -> option Z.
Variable float_of_string : string -> option spec_float.

Local Abbreviation parse_files := (_parse_xml_files int_of_string float_of_string).
Local Abbreviation parse_file := (_parse_xml_file int_of_string float_of_string).



(** X6: entries of the directory whose name does not match [TEST-*.xml] are
    never opened: with or without such an entry, readable or not, the parser
    gives the same result. *)
Theorem _parse_xml_files_ignores (w : world) before file_name file after :
  glob_match file_name = false ->
  xml_dir w = (before ++ (file_name, file) :: after)%list ->
  parse_files w
  = parse_files (World (before ++ after) (report_dir_exists w)
                       (report_dir_writable w) (report_file w) (log w)).
Proof.
  intros Hm Hdir. unfold _parse_xml_files, glob. cbn. rewrite Hdir.
  rewrite !filter_app, filter_cons_False; [reflexivity|].
  cbn. congruence.
Qed.

End FilesProperties.


Lemma _parse_xml_files_ignores_witness :
  _parse_xml_files sample_int sample_float one_file_world
  = _parse_xml_files sample_int sample_float
      (World [("TEST-a.xml", Document two_suites)] false true None []).
Proof.
  exact (_parse_xml_files_ignores sample_int sample_float one_file_world
           [("TEST-a.xml", Document two_suites)] "notes.txt" Malformed []
           eq_refl eq_refl).
Defined.

(** ** Which files are read *)

Lemma append_cons c s r : String c s ++ r = String c (s ++ r).
Proof. reflexivity. Qed.

Lemma append_nil r : EmptyString ++ r = r.
Proof. reflexivity. Qed.

Lemma string_prefix_app s1 s2 :
  String.prefix s1 s2 = true <-> exists rest, s2 = s1 ++ rest.
Proof.
  revert s2. induction s1 as [|a s1 IH]; intros s2.
  - split; [intros _; exists s2; reflexivity | destruct s2; reflexivity].
  - destruct s2 as [|b s2]; cbn; [split; [discriminate | intros [r [=]]]|].
    destruct (ascii_dec a b) as [->|Hne].
    + rewrite IH. split; intros [r Hr]; exists r; rewrite append_cons in *;
        congruence.
    + split; [discriminate | intros [r Hr]; rewrite append_cons in Hr; congruence].
Qed.

Lemma string_length_app s1 s2 :
  String.length (s1 ++ s2) = (String.length s1 + String.length s2)%nat.
Proof.
  induction s1 as [|c s1 IH]; [reflexivity|].
  rewrite append_cons. cbn. congruence.
Qed.

Lemma substring_all s : substring 0 (String.length s) s = s.
Proof. induction s; cbn; congruence. Qed.

Lemma substring_app_r pre suf :
  substring (String.length pre) (String.length suf) (pre ++ suf) = suf.
Proof.
  induction pre as [|c pre IH]; [apply substring_all|].
  rewrite append_cons. cbn. exact IH.
Qed.

Lemma string_split_at n s :
  (n <= String.length s)%nat ->
  exists pre suf, s = pre ++ suf /\ String.length pre = n.
Proof.
  revert s. induction n as [|n IH]; intros s Hn.
  - exists EmptyString, s. split; reflexivity.
  - destruct s as [|c s]; cbn in Hn; [lia|].
    destruct (IH s) as (pre & suf & -> & Hlen); [lia|].
    exists (String c pre), suf. split; [reflexivity | cbn; congruence].
Qed.

Lemma string_app_assoc s1 s2 s3 : (s1 ++ s2) ++ s3 = s1 ++ (s2 ++ s3).
Proof.
  induction s1 as [|c s1 IH]; [reflexivity|].
  rewrite !append_cons. congruence.
Qed.

(** X7: a directory entry is read exactly when its name is [TEST-],
    anything (nothing included), [.xml], with the case as written. *)
Theorem glob_match_iff (file_name : string) :
  glob_match file_name = true <->
  exists middle, file_name = "TEST-" ++ middle ++ ".xml".
Proof.
  unfold glob_match. rewrite !andb_true_iff, string_prefix_app.
  rewrite String.eqb_eq, Nat.leb_le. split.
  - intros [[[rest ->] Hsuf] Hlen].
    rewrite string_length_app in Hlen, Hsuf. cbn [String.length] in Hlen, Hsuf.
    destruct (string_split_at (String.length rest - 4) rest)
      as (middle & suf & -> & Hmid); [apply Nat.le_sub_l|].
    rewrite string_length_app in Hlen, Hsuf, Hmid.
    assert (String.length suf = 4%nat) as Hs by lia.
    exists middle. f_equal. f_equal.
    rewrite <- string_app_assoc in Hsuf.
    replace (5 + (String.length middle + String.length suf) - 4)%nat
      with (String.length ("TEST-" ++ middle)) in Hsuf
      by (rewrite string_length_app; cbn [String.length]; lia).
    rewrite <- Hs in Hsuf at 1.
    rewrite substring_app_r in Hsuf. congruence.
  - intros [middle ->]. split; [split|].
    + eauto.
    + rewrite <- string_app_assoc.
      replace (String.length (("TEST-" ++ middle) ++ ".xml") - 4)%nat
        with (String.length ("TEST-" ++ middle))
        by (rewrite !string_length_app; cbn [String.length]; lia).
      symmetry. apply (substring_app_r ("TEST-" ++ middle) ".xml").
    + rewrite !string_length_app. cbn [String.length]. lia.
Qed.

(** ** What [report] does to the world *)

Section ReportOutcome.

Variable int_of_string : string -> option Z.
Variable float_of_string : string -> option spec_float.
Variable py : python.
Variable render : gmap string template_value -> string.
Variable report_file_path : string.

Local Abbreviation run_report :=
  (report int_of_string float_of_string py render report_file_path).
Local Abbreviation parse_files := (_parse_xml_files int_of_string float_of_string).
Local Abbreviation generate := (_generate_html py render).

(** [report], once the files are parsed. *)
Lemma report_parsed w suites :
  parse_files w = Ok suites ->
  run_report w =
  let w := with_log "Generating JUnit HTML report..." w in
  if negb (report_dir_exists w) && negb (report_dir_writable w)
  then (w, Raise OSError)
  else
    let w := with_report_dir w in
    if negb (report_dir_writable w) then (w, Raise IOError)
    else
      let w := with_report_file EmptyString w in
      match generate suites with
      | Raise ex => (w, Raise ex)
      | Ok html =>
          (with_log ("JUnit HTML report generated to " ++ report_file_path)
                    (with_report_file html w), Ok report_file_path)
      end.
Proof.
  intros H. unfold report.
  change (parse_files (with_log "Generating JUnit HTML report..." w))
    with (parse_files w).
  rewrite H. reflexivity.
Qed.


(** X9: the report file is opened for writing before the HTML is generated:
    when the files parse but generating the HTML raises, [report] raises the
    same exception and leaves an empty report file in place of the old
    one. *)
Theorem report_truncates (w : world) (suites : list ReportTestSuite) (e : exn) :
  parse_files w = Ok suites ->
  report_dir_writable w = true ->
  generate suites = Raise e ->
  snd (run_report w) = Raise e /\
  report_file (fst (run_report w)) = Some EmptyString /\
  report_dir_exists (fst (run_report w)) = true.
Proof.
  intros Hparse Hw Hgen. rewrite (report_parsed _ _ Hparse). cbn.
  rewrite Hw, andb_false_r. cbn. rewrite Hgen. cbn. auto.
Qed.

(** X10: when the files parse, the directory is writable and the HTML is
    generated, [report] creates the report directory if needed, writes
    exactly the HTML over the report file, logs where, and returns the
    path. *)
Theorem report_writes (w : world) (suites : list ReportTestSuite) (html : string) :
  parse_files w = Ok suites ->
  report_dir_writable w = true ->
  generate suites = Ok html ->
  snd (run_report w) = Ok report_file_path /\
  report_file (fst (run_report w)) = Some html /\
  report_dir_exists (fst (run_report w)) = true /\
  log (fst (run_report w))
  = (log w ++ ["Generating JUnit HTML report...";
               ("JUnit HTML report generated to " ++ report_file_path)%string])%list.
Proof.
  intros Hparse Hw Hgen. rewrite (report_parsed _ _ Hparse). cbn.
  rewrite Hw, andb_false_r. cbn. rewrite Hgen. cbn.
  rewrite <- app_assoc. auto.
Qed.

(** X11: a directory without any matching file still gets a report: the
    template receives zero totals, the rate [0.00%], the skipped icon and no
    suite. *)
Theorem report_no_matching_file (w : world) :
  (forall entry, entry ∈ xml_dir w -> glob_match (fst entry) = false) ->
  report_dir_writable w = true ->
  parse_files w = Ok [] /\
  snd (run_report w) = Ok report_file_path /\
  report_file (fst (run_report w)) = Some (render empty_values).
Proof.
  intros Hnone Hw.
  assert (glob w = []) as Hglob.
  { unfold glob.
    destruct (filter (fun entry => glob_match entry.1 = true) (xml_dir w))
      as [|entry l] eqn:E; [reflexivity|].
    assert (entry ∈ filter (fun entry => glob_match entry.1 = true) (xml_dir w))
      as Hin by (rewrite E; left).
    apply list_elem_of_filter in Hin as [Hm Hin].
    rewrite (Hnone _ Hin) in Hm. discriminate. }
  assert (parse_files w = Ok []) as Hparse
    by (unfold _parse_xml_files; rewrite Hglob; reflexivity).
  split; [exact Hparse|].
  assert (generate [] = Ok (render empty_values)) as Hgen by reflexivity.
  destruct (report_writes w [] _ Hparse Hw Hgen) as (H1 & H2 & _).
  auto.
Qed.

End ReportOutcome.

Lemma report_truncates_witness :
  snd (report sample_int sample_float Python2 sample_render
              "reports/junit-report.html" overflow_world)
  = Raise OverflowError /\
  report_file (fst (report sample_int sample_float Python2 sample_render
                           "reports/junit-report.html" overflow_world))
  = Some EmptyString /\
  report_dir_exists (fst (report sample_int sample_float Python2 sample_render
                                 "reports/junit-report.html" overflow_world))
  = true.
Proof.
  apply (report_truncates sample_int sample_float Python2 sample_render
           "reports/junit-report.html" overflow_world [overflow_suite]).
  - vm_compute. reflexivity.
  - reflexivity.
  - vm_compute. reflexivity.
Defined.

Lemma report_writes_witness :
  snd (report sample_int sample_float Python2 sample_render
              "reports/junit-report.html" one_file_world)
  = Ok "reports/junit-report.html" /\
  report_file (fst (report sample_int sample_float Python2 sample_render
                           "reports/junit-report.html" one_file_world))
  = Some "50.00%".
Proof.
  pose proof (report_writes sample_int sample_float Python2 sample_render
                "reports/junit-report.html" one_file_world
                (rev two_suites_parsed) "50.00%") as H.
  refine ((fun H' => conj (proj1 H') (proj1 (proj2 H'))) (H _ _ _)).
  - vm_compute. reflexivity.
  - reflexivity.
  - vm_compute. reflexivity.
Defined.

Lemma report_no_matching_file_witness :
  _parse_xml_files sample_int sample_float no_result_world = Ok [] /\
  snd (report sample_int sample_float Python3 sample_render
              "reports/junit-report.html" no_result_world)
  = Ok "reports/junit-report.html" /\
  report_file (fst (report sample_int sample_float Python3 sample_render
                           "reports/junit-report.html" no_result_world))
  = Some (sample_render empty_values).
Proof.
  apply (report_no_matching_file sample_int sample_float Python3 sample_render
           "reports/junit-report.html" no_result_world).
  - intros entry Hin. cbn in Hin.
    repeat (apply elem_of_cons in Hin as [->|Hin]; [reflexivity|]).
    inversion Hin.
  - reflexivity.
Defined.

(** ** Exceptions of the success rate *)

(** Rounding a positive mantissa whose magnitude is above the subnormal
    range never gives zero or NaN. *)
Lemma binary_round_aux_nonzero sx mx ex lx :
  0 < mx -> - 1021 <= Zdigits2 mx + ex ->
  (exists m e, binary_round_aux prec emax sx mx ex lx = S754_finite sx m e) \/
  binary_round_aux prec emax sx mx ex lx = S754_infinity sx.
Proof.
  intros Hm HD. unfold binary_round_aux.
  destruct (shr_fexp_normal mx ex lx) as (mrs' & -> & Hpos' & Hd'); [lia|lia|].
  set (e' := Z.max ex (Zdigits2 mx + ex - 53)) in *.
  set (m1 := round_nearest_even (shr_m mrs') (loc_of_shr_record mrs')).
  pose proof (round_nearest_even_bounds (shr_m mrs') (loc_of_shr_record mrs'))
    as Hround. fold m1 in Hround.
  assert (Zdigits2 (shr_m mrs') <= Zdigits2 m1) as Hd1
    by (apply Zdigits2_mono; lia).
  destruct (shr_fexp_normal m1 e' loc_Exact) as (mrs'' & -> & Hpos'' & _);
    [lia|lia|].
  destruct (shr_m mrs'') as [|m|m]; try lia.
  destruct (_ <=? _); eauto.
Qed.

(** A nonzero integer converts to a nonzero finite float, or not at all. *)
Lemma float_of_int_finite n x :
  n <> 0 -> float_of_int n = Ok x -> exists s m e, x = S754_finite s m e.
Proof.
  intros Hn. unfold float_of_int.
  assert (forall s p,
            (exists m e, binary_round prec emax s p 0 = S754_finite s m e) \/
            binary_round prec emax s p 0 = S754_infinity s) as Hround.
  { intros s p. unfold binary_round.
    destruct (shl_align_spec p 0 (fexp prec emax (Zpos (digits2_pos p) + 0)))
      as (mz & ez & -> & Hd & _).
    apply binary_round_aux_nonzero; [lia|].
    pose proof (Zdigits2_pos (Zpos p)). lia. }
  destruct n as [|p|p]; [contradiction| |]; cbn [binary_normalize];
    [destruct (Hround false p) as [(m & e & ->)| ->]
    |destruct (Hround true p) as [(m & e & ->)| ->]];
    try discriminate; intros [= <-]; eauto.
Qed.

Lemma float_of_int_raise n e : float_of_int n = Raise e -> e = OverflowError.
Proof.
  unfold float_of_int.
  destruct (binary_normalize prec emax n 0 false); congruence.
Qed.

Lemma success_rate_outcome
    (test_count error_count failure_count skipped_count : Z) :
  let successful := test_count - (error_count + failure_count + skipped_count) in
  ((exists rate,
      Suite.success_rate test_count error_count failure_count skipped_count
      = Ok rate) \/
   Suite.success_rate test_count error_count failure_count skipped_count
   = Raise OverflowError) /\
  (Suite.success_rate test_count error_count failure_count skipped_count
   = Raise OverflowError <->
   test_count <> 0 /\
   (float_of_int successful = Raise OverflowError \/
    float_of_int test_count = Raise OverflowError)).
Proof.
  intros successful. unfold Suite.success_rate. fold successful.
  destruct (Z.eqb_spec test_count 0) as [->|Ht].
  - split; [eauto|]. split; [discriminate | intros [[] _]; reflexivity].
  - destruct (float_of_int successful) as [x|e1] eqn:Ex; cbn.
    + destruct (float_of_int test_count) as [total|e2] eqn:Et; cbn.
      * destruct (float_of_int_finite _ _ Ht Et) as (s & m & e & ->). cbn.
        split; [eauto|].
        split; [discriminate | intros [_ [|]]; discriminate].
      * apply float_of_int_raise in Et as ->.
        split; [auto|]. split; auto.
    + apply float_of_int_raise in Ex as ->.
      split; [auto|]. split; auto.
Qed.

(** X12: [success_rate] never divides by zero: it returns a string, or
    raises [OverflowError], which it does exactly when the number of tests
    is not zero and that number or the number of successful tests is too
    large for a float. *)
Theorem success_rate_only_overflows
    (test_count error_count failure_count skipped_count : Z) :
  let successful := test_count - (error_count + failure_count + skipped_count) in
  ((exists rate,
      Suite.success_rate test_count error_count failure_count skipped_count
      = Ok rate) \/
   Suite.success_rate test_count error_count failure_count skipped_count
   = Raise OverflowError) /\
  (Suite.success_rate test_count error_count failure_count skipped_count
   = Raise OverflowError <->
   test_count <> 0 /\
   (float_of_int successful = Raise OverflowError \/
    float_of_int test_count = Raise OverflowError)).
Proof. apply success_rate_outcome. Qed.

(** ** What the template receives *)

Lemma fold_left_add_totals suites t e f s tm :
  fold_left add_totals suites (t, e, f, s, tm)
  = (t + sum_of tests suites, e + sum_of errors suites,
     f + sum_of failures suites, s + sum_of skipped suites,
     fold_left (fun acc x => float_add acc (time x)) suites tm).
Proof.
  revert t e f s tm. induction suites as [|x suites IH]; intros t e f s tm.
  - unfold sum_of. cbn. rewrite !Z.add_0_r. reflexivity.
  - cbn [fold_left add_totals]. rewrite IH. unfold sum_of. cbn.
    rewrite !Z.add_assoc. reflexivity.
Qed.

Lemma as_dict_fresh_outcome py s :
  (exists d, Suite.as_dict py (suite_dict s) = (d, Ok d)) \/
  Suite.as_dict py (suite_dict s) = (suite_dict s, Raise OverflowError).
Proof.
  rewrite as_dict_fresh.
  destruct (proj1 (success_rate_outcome (tests s) (errors s)
                     (failures s) (skipped s))) as [[rate ->]| ->]; eauto.
Qed.

Lemma success_rate_in_range t e f s :
  in_float_range t e f s -> is_ok (Suite.success_rate t e f s) = true.
Proof.
  intros [Ht Hs].
  destruct (success_rate_outcome t e f s) as [[[rate ->]|Hraise] Hiff];
    [reflexivity|].
  apply Hiff in Hraise as [Hne [H|H]].
  - destruct (Z.eq_dec (t - (e + f + s)) 0) as [E|E].
    + rewrite E in H. discriminate H.
    + destruct (float_of_int_normal _ E Hs) as (m & ex & Hm & _).
      rewrite Hm in H. discriminate H.
  - destruct (float_of_int_normal _ Hne Ht) as (m & ex & Hm & _).
    rewrite Hm in H. discriminate H.
Qed.

Section TemplateValues.

Variable int_of_string : string -> option Z.
Variable float_of_string : string -> option spec_float.
Variable py : python.
Variable render : gmap string template_value -> string.
Variable report_file_path : string.

Local Abbreviation run_report :=
  (report int_of_string float_of_string py render report_file_path).
Local Abbreviation parse_files := (_parse_xml_files int_of_string float_of_string).
Local Abbreviation generate := (_generate_html py render).

(** [_generate_html] with its loop summed up. *)
Lemma _generate_html_sums suites :
  generate suites =
  (total_success ←
     Suite.success_rate (sum_of tests suites) (sum_of errors suites)
                        (sum_of failures suites) (sum_of skipped suites);
   records ← result_mapM (fun ts => snd (Suite.as_dict py (suite_dict ts)))
                         suites;
   Ok (render
         (<["testsuites" := TSuites records]>
           (<["summary_icon_class" :=
                TAtom (AStr (Suite.icon_class
                               (sum_of tests suites) (sum_of errors suites)
                               (sum_of failures suites)
                               (sum_of skipped suites)))]>
             (<["total_success" := TAtom (AStr total_success)]>
               (<["total_time" := TAtom (AFloat (total_time suites))]>
                 (<["total_skipped" := TAtom (AInt (sum_of skipped suites))]>
                   (<["total_failures" :=
                        TAtom (AInt (sum_of failures suites))]>
                     (<["total_errors" := TAtom (AInt (sum_of errors suites))]>
                       (<["total_tests" :=
                            TAtom (AInt (sum_of tests suites))]> ∅)))))))))).
Proof.
  unfold _generate_html. rewrite fold_left_add_totals. reflexivity.
Qed.

Lemma _generate_html_raise suites e :
  generate suites = Raise e -> e = OverflowError.
Proof.
  rewrite _generate_html_sums. intros H.
  apply bind_raise in H as [H|(rate & _ & H)].
  - destruct (proj1 (success_rate_outcome
                       (sum_of tests suites) (sum_of errors suites)
                       (sum_of failures suites) (sum_of skipped suites)))
      as [[rate Hr]|Hr]; congruence.
  - apply bind_raise in H as [H|(records & _ & [=])].
    apply result_mapM_raise_inv in H as (x & _ & Hx).
    destruct (as_dict_fresh_outcome py x) as [[d Hd]|Hd];
      rewrite Hd in Hx; cbn in Hx; congruence.
Qed.

(** X13: when [_generate_html] returns, the template was rendered once, on
    eight values: the totals are the sums of the suites' counts and, for the
    time, the float sum from left to right starting at [0.0]; the success
    rate and the icon class are those of the summed counts; the suite
    records are the display records of the suites, in the order given. *)
Theorem _generate_html_values (suites : list ReportTestSuite) (html : string) :
  generate suites = Ok html ->
  exists rate records,
    Suite.success_rate (sum_of tests suites) (sum_of errors suites)
                       (sum_of failures suites) (sum_of skipped suites)
    = Ok rate /\
    Forall2 (fun s d => Suite.as_dict py (suite_dict s) = (d, Ok d))
            suites records /\
    html =
    render
      (<["testsuites" := TSuites records]>
        (<["summary_icon_class" :=
             TAtom (AStr (Suite.icon_class
                            (sum_of tests suites) (sum_of errors suites)
                            (sum_of failures suites) (sum_of skipped suites)))]>
          (<["total_success" := TAtom (AStr rate)]>
            (<["total_time" := TAtom (AFloat (total_time suites))]>
              (<["total_skipped" := TAtom (AInt (sum_of skipped suites))]>
                (<["total_failures" := TAtom (AInt (sum_of failures suites))]>
                  (<["total_errors" := TAtom (AInt (sum_of errors suites))]>
                    (<["total_tests" :=
                         TAtom (AInt (sum_of tests suites))]> ∅)))))))).
Proof.
  rewrite _generate_html_sums. intros H.
  apply bind_ok in H as (rate & Hrate & H).
  apply bind_ok in H as (records & Hrec & [= <-]).
  exists rate, records. split; [exact Hrate|]. split; [|reflexivity].
  apply result_mapM_ok in Hrec.
  eapply Forall2_impl; [exact Hrec|]. cbn. intros s d Hd.
  destruct (as_dict_fresh_outcome py s) as [[d' Hd']|Hd'];
    rewrite Hd' in Hd; cbn in Hd; [|discriminate].
  injection Hd as <-. exact Hd'.
Qed.

(** X14: [report] raises nothing but a parse failure of the XML files
    ([ParseError], [IOError], [KeyError] or [ValueError]), the [OSError] of
    creating the report directory, the [IOError] of opening the report
    file, or the [OverflowError] of a success rate: never
    [ZeroDivisionError], [TypeError] or [AttributeError]. *)
Theorem report_exceptions (w : world) (e : exn) :
  snd (run_report w) = Raise e ->
  e = XmlParseError \/ e = IOError \/ e = OSError \/ e = OverflowError \/
  (exists key, e = KeyError key) \/ (exists text, e = ValueError text).
Proof.
  intros H. destruct (parse_files w) as [suites|e'] eqn:Hparse.
  - rewrite (report_parsed _ _ _ _ _ _ _ Hparse) in H. cbn in H.
    destruct (negb (report_dir_exists w) && negb (report_dir_writable w));
      [injection H as <-; auto|].
    cbn in H. destruct (negb (report_dir_writable w));
      [injection H as <-; auto|].
    cbn in H. destruct (generate suites) as [html|e''] eqn:Hgen;
      [discriminate|].
    cbn in H. injection H as <-.
    apply _generate_html_raise in Hgen as ->. auto 6.
  - rewrite (report_parse_raise _ _ _ _ _ _ _ Hparse) in H. cbn in H.
    injection H as <-.
    apply _parse_xml_files_raise in Hparse.
    destruct e'; try discriminate; eauto 8.
Qed.

(** X15: [_generate_html] returns when, for every suite and for the sums
    over the suites, the number of tests and the number of successful tests
    are below [2 ^ 1000] in absolute value. *)
Theorem _generate_html_in_range (suites : list ReportTestSuite) :
  Forall (fun s => in_float_range (tests s) (errors s) (failures s) (skipped s))
         suites ->
  in_float_range (sum_of tests suites) (sum_of errors suites)
                 (sum_of failures suites) (sum_of skipped suites) ->
  is_ok (generate suites) = true.
Proof.
  intros Hall Hsum. rewrite _generate_html_sums.
  apply success_rate_in_range, is_ok_true in Hsum as [rate ->]. cbn.
  assert (is_ok (result_mapM
                   (fun ts => snd (Suite.as_dict py (suite_dict ts))) suites)
          = true) as Hrec.
  { apply result_mapM_all_ok. intros s Hs.
    rewrite Forall_forall in Hall. apply Hall in Hs.
    apply success_rate_in_range, is_ok_true in Hs as [r Hr].
    rewrite as_dict_fresh, Hr. reflexivity. }
  apply is_ok_true in Hrec as [records ->]. reflexivity.
Qed.

End TemplateValues.

Lemma _generate_html_values_witness :
  exists rate records,
    Suite.success_rate (sum_of tests two_suites_parsed)
                       (sum_of errors two_suites_parsed)
                       (sum_of failures two_suites_parsed)
                       (sum_of skipped two_suites_parsed)
    = Ok rate /\
    Forall2 (fun s d => Suite.as_dict Python3 (suite_dict s) = (d, Ok d))
            two_suites_parsed records /\
    "50.00%" =
    sample_render
      (<["testsuites" := TSuites records]>
        (<["summary_icon_class" :=
             TAtom (AStr (Suite.icon_class
                            (sum_of tests two_suites_parsed)
                            (sum_of errors two_suites_parsed)
                            (sum_of failures two_suites_parsed)
                            (sum_of skipped two_suites_parsed)))]>
          (<["total_success" := TAtom (AStr rate)]>
            (<["total_time" := TAtom (AFloat (total_time two_suites_parsed))]>
              (<["total_skipped" :=
                   TAtom (AInt (sum_of skipped two_suites_parsed))]>
                (<["total_failures" :=
                     TAtom (AInt (sum_of failures two_suites_parsed))]>
                  (<["total_errors" :=
                       TAtom (AInt (sum_of errors two_suites_parsed))]>
                    (<["total_tests" :=
                         TAtom (AInt (sum_of tests two_suites_parsed))]>
                       ∅)))))))).
Proof.
  apply (_generate_html_values Python3 sample_render two_suites_parsed "50.00%").
  vm_compute. reflexivity.
Defined.

Lemma report_exceptions_witness :
  snd (report sample_int sample_float Python2 sample_render
              "reports/junit-report.html" broken_world)
  = Raise XmlParseError /\
  (XmlParseError = XmlParseError \/ XmlParseError = IOError \/
   XmlParseError = OSError \/ XmlParseError = OverflowError \/
   (exists key, XmlParseError = KeyError key) \/
   (exists text, XmlParseError = ValueError text)).
Proof.
  assert (snd (report sample_int sample_float Python2 sample_render
                      "reports/junit-report.html" broken_world)
          = Raise XmlParseError) as H by (vm_compute; reflexivity).
  exact (conj H (report_exceptions sample_int sample_float Python2 sample_render
                   "reports/junit-report.html" broken_world XmlParseError H)).
Defined.

Lemma _generate_html_in_range_witness :
  is_ok (_generate_html Python2 sample_render two_suites_parsed) = true.
Proof.
  apply (_generate_html_in_range Python2 sample_render two_suites_parsed).
  - repeat constructor.
  - split; reflexivity.
Defined.

(** ** The summary icon *)

Lemma sum_of_cons field x suites :
  sum_of field (x :: suites) = field x + sum_of field suites.
Proof. reflexivity. Qed.

Lemma sum_of_ext field1 field2 suites :
  Forall (fun s => field1 s = field2 s) suites ->
  sum_of field1 suites = sum_of field2 suites.
Proof.
  induction 1 as [|x suites Hx _ IH]; [reflexivity|].
  rewrite !sum_of_cons, Hx, IH. reflexivity.
Qed.

Lemma sum_of_nonneg field suites :
  Forall (fun s => 0 <= field s) suites -> 0 <= sum_of field suites.
Proof.
  induction 1 as [|x suites Hx _ IH]; [reflexivity|].
  rewrite sum_of_cons. lia.
Qed.

Lemma sum_of_pos field suites :
  Forall (fun s => 0 <= field s) suites ->
  (0 < sum_of field suites <-> Exists (fun s => 0 < field s) suites).
Proof.
  induction 1 as [|x suites Hx Hall IH].
  - split; [intros H; discriminate H | inversion 1].
  - rewrite sum_of_cons, Exists_cons, <- IH.
    pose proof (sum_of_nonneg _ _ Hall). lia.
Qed.

Lemma sum_of_zero field suites :
  Forall (fun s => 0 <= field s) suites ->
  (sum_of field suites <= 0 <-> Forall (fun s => field s = 0) suites).
Proof.
  induction 1 as [|x suites Hx Hall IH].
  - split; [constructor | intros _; reflexivity].
  - rewrite sum_of_cons, Forall_cons, <- IH.
    pose proof (sum_of_nonneg _ _ Hall). lia.
Qed.

(** X16: the summary icon of the report, from the suites.  When every suite
    has as many skipped tests as tests (for one, when there is no suite) the
    summary is [test-skipped], whatever errors and failures the suites
    report.  Otherwise, when the totals of tests and of skipped tests
    differ and no suite reports a negative number of errors or failures,
    the summary is [test-error] exactly when some suite has an error,
    [test-failure] exactly when none has an error and some suite has a
    failure, and [test-passed] exactly when no suite has either. *)
Theorem summary_icon_class_spec (suites : list ReportTestSuite) :
  let summary :=
    Suite.icon_class (sum_of tests suites) (sum_of errors suites)
                     (sum_of failures suites) (sum_of skipped suites) in
  (Forall (fun s => tests s = skipped s) suites -> summary = test_skipped) /\
  (Forall (fun s => 0 <= errors s /\ 0 <= failures s) suites ->
   sum_of tests suites <> sum_of skipped suites ->
   (summary = test_error <-> Exists (fun s => 0 < errors s) suites) /\
   (summary = test_failure <->
    Forall (fun s => errors s = 0) suites /\
    Exists (fun s => 0 < failures s) suites) /\
   (summary = test_passed <->
    Forall (fun s => errors s = 0 /\ failures s = 0) suites)).
Proof.
  intros summary. subst summary. unfold Suite.icon_class. split.
  - intros Hall. rewrite (sum_of_ext tests skipped suites Hall).
    rewrite Z.eqb_refl. reflexivity.
  - intros Hall Hne.
    assert (Forall (fun s => 0 <= errors s) suites) as He
      by (eapply Forall_impl; [exact Hall | intros s [H _]; exact H]).
    assert (Forall (fun s => 0 <= failures s) suites) as Hf
      by (eapply Forall_impl; [exact Hall | intros s [_ H]; exact H]).
    rewrite Forall_and, <- (sum_of_zero errors suites He),
      <- (sum_of_zero failures suites Hf), <- (sum_of_pos errors suites He),
      <- (sum_of_pos failures suites Hf).
    destruct (Z.eqb_spec (sum_of tests suites) (sum_of skipped suites));
      [contradiction|].
    destruct (Z.gtb_spec (sum_of errors suites) 0);
      destruct (Z.gtb_spec (sum_of failures suites) 0);
      unfold test_error, test_failure, test_passed;
      repeat split; intros; try discriminate; try reflexivity; lia.
Qed.
